(** * File-share service: the request handlers of [src/app/server.js]

    A shallow embedding of the four file-lifecycle handlers (presign-upload,
    complete, get-metadata, share), of [requireString] and of the error
    middleware, followed by the properties of the specification.

    Modelling choices, all visible in the definitions below:
    - a JavaScript string is the list of its UTF-16 code units;
    - a JavaScript value is a small tagged union ([jsval]); numbers are the
      integers (the handlers only build and compare integral numbers);
    - the metadata table is a finite map from the primary key [fileId] to an
      item, and an item is a finite map from attribute names to values;
    - everything a handler obtains from outside the process (the uuid
      generator, the clock, the replies of the object store, faults of the
      metadata store) is read from a [host] record, so a handler is a
      function of the request, the host and the table;
    - the calls a handler makes are logged, in order, next to the table. *)

From Stdlib Require Import ZArith NArith String Ascii List Lia.
From stdpp Require Import base option list gmap strings pretty.
From Equations Require Import Equations.

Local Open Scope Z_scope.

(** ** Strings *)

Definition jsstring := list N.

(** An ASCII literal of the source as a JavaScript string. *)
Definition str (s : string) : jsstring :=
  List.map N_of_ascii (list_ascii_of_string s).

Definition between (lo hi c : N) : bool := ((lo <=? c) && (c <=? hi))%N.

(** The regular-expression class [\w], without the [i] and [u] flags:
    [A-Za-z0-9_]. *)
Definition is_word (c : N) : bool :=
  between 65 90 c || between 97 122 c || between 48 57 c || (c =? 95)%N.

(** The complement of the bracket expression of [/[^\w.\-]+/g]: a code unit the
    expression does NOT match is a word character, a dot or a hyphen. *)
Definition in_kept_class (c : N) : bool :=
  is_word c || (c =? 46)%N || (c =? 45)%N.

Definition excluded (c : N) : bool := negb (in_kept_class c).

(** White space and line terminators, as [String.prototype.trim] strips
    them: TAB, LF, VT, FF, CR, SP, NBSP, U+1680, U+2000..U+200A, U+2028,
    U+2029, U+202F, U+205F, U+3000 and U+FEFF. *)
Definition is_space (c : N) : bool :=
  between 9 13 c || (c =? 32)%N || (c =? 160)%N || (c =? 5760)%N
  || between 8192 8202 c || (c =? 8232)%N || (c =? 8233)%N
  || (c =? 8239)%N || (c =? 8287)%N || (c =? 12288)%N || (c =? 65279)%N.

Fixpoint trimStart (s : jsstring) : jsstring :=
  match s with
  | c :: s' => if is_space c then trimStart s' else s
  | [] => []
  end.

Definition trimEnd (s : jsstring) : jsstring := rev (trimStart (rev s)).

Definition trim (s : jsstring) : jsstring := trimEnd (trimStart s).

(** The longest prefix of [s] that [[^\w.\-]+] can match is the run of
    excluded code units [s] starts with; [skip_excluded] is what follows. *)
Fixpoint skip_excluded (s : jsstring) : jsstring :=
  match s with
  | c :: s' => if excluded c then skip_excluded s' else s
  | [] => []
  end.

(** [s.replace(/[^\w.\-]+/g, "_")]: scanning from the left, every match of
    the expression (one or more excluded code units, greedy) is replaced by
    one underscore and the scan resumes after the match; a code unit at
    which the expression does not match is copied. *)
Equations? replace_excluded (s : jsstring) : jsstring by wf (length s) lt :=
  replace_excluded [] := [];
  replace_excluded (c :: s') :=
    if excluded c then 95%N :: replace_excluded (skip_excluded s')
    else c :: replace_excluded s'.
Proof.
  all: simpl; try lia.
  assert (∀ s : jsstring, (length (skip_excluded s) <= length s)%nat) as Hskip.
  { induction s as [|c0 s IH]; simpl; [lia|].
    destruct (excluded c0); simpl; lia. }
  pose proof (Hskip s'). lia.
Qed.

Definition safeName (originalFilename : jsstring) : jsstring :=
  replace_excluded originalFilename.


(** ** Values, objects, errors *)

(** A JavaScript value as the handlers see one. [JObj repr] stands for any
    object or array; the handlers never look inside one, they can only
    render it in a template literal, and [repr] is that rendering. *)
Inductive jsval :=
  | JUndefined
  | JNull
  | JBool (b : bool)
  | JNum (n : Z)
  | JStr (s : jsstring)
  | JObj (repr : jsstring).

Global Instance jsval_eq_dec : EqDecision jsval.
Proof. solve_decision. Defined.

(** An object with primitive fields: a request body, [req.params], a JSON
    response body, an item of the table. A field that is absent reads as
    [undefined]. *)
Abbreviation jsobj := (gmap string jsval).

Definition field (o : jsobj) (name : string) : jsval :=
  default JUndefined (o !! name).

Definition obj (fields : list (string * jsval)) : jsobj := list_to_map fields.

(** [!v] *)
Definition falsy (v : jsval) : bool :=
  match v with
  | JUndefined | JNull => true
  | JBool b => negb b
  | JNum n => (n =? 0)
  | JStr s => match s with [] => true | _ => false end
  | JObj _ => false
  end.

(** [a ?? b] *)
Definition nullish (a b : jsval) : jsval :=
  match a with
  | JUndefined | JNull => b
  | _ => a
  end.

(** The string a value contributes to a template literal. *)
Definition to_string (v : jsval) : jsstring :=
  match v with
  | JUndefined => str "undefined"
  | JNull => str "null"
  | JBool true => str "true"
  | JBool false => str "false"
  | JNum n => str (pretty n)
  | JStr s => s
  | JObj repr => repr
  end.

(** [a !== b] against a string literal. *)
Definition strict_neq (a b : jsval) : bool := negb (bool_decide (a = b)).

(** An [Error]: its message and, when it carries one, its [statusCode]. *)
Record jserror := mkError { message : jsstring; statusCode : option Z }.

Inductive outcome (A : Type) :=
  | Ret (a : A)
  | Throw (e : jserror).
Arguments Ret {A} a.
Arguments Throw {A} e.

(** [requireString]: throws the 400 error unless [val] is a string that is
    not blank; returns the trimmed string. *)
Definition requireString (val : jsval) (name : string) : outcome jsstring :=
  let err := mkError (str name ++ str " is required") (Some 400) in
  match val with
  | JStr s =>
      if falsy val || falsy (JStr (trim s)) then Throw err else Ret (trim s)
  | _ => Throw err (* [!val] or [typeof val !== "string"] *)
  end.

(** ** Configuration *)

(** The environment, read once at start-up; [PRESIGN_EXPIRES_SECONDS] is the
    integer [parseInt] produced. *)
Record config := mkConfig {
  S3_BUCKET : jsstring;
  DDB_TABLE : jsstring;
  PRESIGN_EXPIRES_SECONDS : Z
}.

(** ** The two stores *)

Inductive s3_cmd :=
  | PutObjectCommand (Bucket Key ContentType : jsval)
  | HeadObjectCommand (Bucket Key : jsval)
  | GetObjectCommand (Bucket Key ResponseContentDisposition : jsval).

(** The fields of a head reply the handler reads. *)
Record head_output := mkHead { ContentLength : jsval; ContentType : jsval }.

(** The right-hand side of one [SET] action of an update expression. *)
Inductive set_operand :=
  | SetValue (v : jsval)
      (* [attr = :v] *)
  | SetIfNotExistsPlus (attr : string) (dflt inc : Z).
      (* [attr' = if_not_exists(attr, :dflt) + :inc] *)

Inductive ddb_cmd :=
  | PutCommand (TableName : jsstring) (Item : jsobj)
  | GetCommand (TableName : jsstring) (Key : jsstring)
  | UpdateCommand (TableName : jsstring) (Key : jsstring)
      (UpdateExpression : list (string * set_operand)).

(** The metadata table, keyed by [fileId]. *)
Abbreviation table := (gmap jsstring jsobj).

Inductive event :=
  | EvPresign (cmd : s3_cmd) (expiresIn : Z)   (* [getSignedUrl(s3, cmd, ..)] *)
  | EvS3 (cmd : s3_cmd)                        (* [s3.send(cmd)] *)
  | EvDdb (cmd : ddb_cmd).                     (* [ddb.send(cmd)] *)

(** What a request obtains from outside the process. *)
Record host := mkHost {
  uuidv4 : jsstring;                       (* the value [uuidv4()] returns *)
  new_Date : Z;                            (* [new Date()], in milliseconds *)
  Date_now : Z;                            (* [Date.now()] *)
  toISOString : Z -> jsstring;             (* [Date.prototype.toISOString] *)
  presigner : s3_cmd -> Z -> outcome jsstring;   (* reply of [getSignedUrl] *)
  s3_head : s3_cmd -> outcome head_output;       (* reply of a head call *)
  ddb_fault : ddb_cmd -> option jserror;   (* the store fails the command *)
  ddb_rejects : jserror                    (* thrown for an invalid update *)
}.

Record world := mkWorld { tbl : table; log : list event }.

(** Handlers run in a state-and-exception monad over the world. *)
Definition M (A : Type) : Type := world -> outcome A * world.

Global Instance M_ret : MRet M := fun A (a : A) w => (Ret a, w).

Global Instance M_bind : MBind M := fun A B (k : A -> M B) (m : M A) w =>
  match m w with
  | (Ret a, w') => k a w'
  | (Throw e, w') => (Throw e, w')
  end.

Definition lift {A} (o : outcome A) : M A := fun w => (o, w).

Definition emit (ev : event) : M unit :=
  fun w => (Ret tt, mkWorld (tbl w) (log w ++ [ev])).

(** [await getSignedUrl(s3, cmd, { expiresIn })] *)
Definition getSignedUrl (h : host) (cmd : s3_cmd) (expiresIn : Z) : M jsstring :=
  _ ← emit (EvPresign cmd expiresIn); lift (presigner h cmd expiresIn).

(** [await s3.send(new HeadObjectCommand(..))] *)
Definition s3_send (h : host) (cmd : s3_cmd) : M head_output :=
  _ ← emit (EvS3 cmd); lift (s3_head h cmd).

(** The value one [SET] action assigns, computed on the item as it was
    before the update. [None]: the store rejects the expression (a value the
    marshaller dropped because it is [undefined], or an addition on an
    attribute that is not a number). *)
Definition eval_operand (it : jsobj) (o : set_operand) : option jsval :=
  match o with
  | SetValue JUndefined => None
  | SetValue v => Some v
  | SetIfNotExistsPlus a dflt inc =>
      match it !! a with
      | None => Some (JNum (dflt + inc))
      | Some (JNum n) => Some (JNum (n + inc))
      | Some _ => None
      end
  end.

Fixpoint apply_set (old : jsobj) (acts : list (string * set_operand))
    (it : jsobj) : option jsobj :=
  match acts with
  | [] => Some it
  | (a, o) :: acts' =>
      match eval_operand old o with
      | Some v => apply_set old acts' (<[a := v]> it)
      | None => None
      end
  end.

(** The effect of a command on the table and the [Item] of its output. An
    update of a key that has no item creates one holding the key. *)
Definition ddb_apply (h : host) (cmd : ddb_cmd) (t : table)
    : outcome (option jsobj) * table :=
  match cmd with
  | PutCommand _ it =>
      match it !! "fileId" with
      | Some (JStr k) => (Ret None, <[k := it]> t)
      | _ => (Throw (ddb_rejects h), t)
      end
  | GetCommand _ k => (Ret (t !! k), t)
  | UpdateCommand _ k acts =>
      let old := default {[ "fileId" := JStr k ]} (t !! k) in
      match apply_set old acts old with
      | Some it' => (Ret None, <[k := it']> t)
      | None => (Throw (ddb_rejects h), t)
      end
  end.

(** [await ddb.send(cmd)]; the result is [.Item] of the output. *)
Definition ddb_send (h : host) (cmd : ddb_cmd) : M (option jsobj) :=
  _ ← emit (EvDdb cmd);
  (fun w =>
    match ddb_fault h cmd with
    | Some e => (Throw e, w)
    | None =>
        let '(r, t') := ddb_apply h cmd (tbl w) in (r, mkWorld t' (log w))
    end) : M (option jsobj).

(** ** Responses *)

Record response := mkResponse { status : Z; body : jsobj }.

(** [res.json(b)] *)
Definition json (b : jsobj) : response := mkResponse 200 b.

(** [res.status(code).json(b)] *)
Definition status_json (code : Z) (b : jsobj) : response := mkResponse code b.

(** The error middleware. *)
Definition error_handler (err : jserror) : response :=
  let status :=
    match statusCode err with
    | Some c => if falsy (JNum c) then 500 else c
    | None => 500
    end in
  status_json status
    (obj [("error", JStr (if falsy (JStr (message err))
                          then str "Internal Server Error"
                          else message err))]).

(** ** The handlers *)

Record request := mkRequest { req_body : jsobj; req_params : jsobj }.

Section Handlers.
Variable cfg : config.
Variable h : host.

(** [POST /files/presign-upload] *)
Definition presign_upload (req : request) : M response :=
  originalFilename ← lift (requireString (field (req_body req) "originalFilename") "originalFilename");
  contentType ← lift (requireString (field (req_body req) "contentType") "contentType");
  let fileId := uuidv4 h in
  let safeName := safeName originalFilename in
  let s3Key := str "uploads/" ++ fileId ++ str "/" ++ safeName in
  let createdAt := toISOString h (new_Date h) in
  let expiresAt := Date_now h / 1000 + PRESIGN_EXPIRES_SECONDS cfg in
  let putCmd :=
    PutObjectCommand (JStr (S3_BUCKET cfg)) (JStr s3Key) (JStr contentType) in
  uploadUrl ← getSignedUrl h putCmd (PRESIGN_EXPIRES_SECONDS cfg);
  _ ← ddb_send h (PutCommand (DDB_TABLE cfg) (obj [
        ("fileId", JStr fileId);
        ("s3Bucket", JStr (S3_BUCKET cfg));
        ("s3Key", JStr s3Key);
        ("originalFilename", JStr originalFilename);
        ("contentType", JStr contentType);
        ("status", JStr (str "UPLOADING"));
        ("createdAt", JStr createdAt);
        ("expiresAt", JNum expiresAt);
        ("downloadCount", JNum 0)]));
  mret (json (obj [("fileId", JStr fileId); ("uploadUrl", JStr uploadUrl);
                   ("s3Key", JStr s3Key); ("expiresAt", JNum expiresAt)])).

(** [POST /files/complete] *)
Definition complete (req : request) : M response :=
  fileId ← lift (requireString (field (req_body req) "fileId") "fileId");
  meta ← ddb_send h (GetCommand (DDB_TABLE cfg) fileId);
  match meta with
  | None => mret (status_json 404 (obj [("error", JStr (str "fileId not found"))]))
  | Some Item =>
      if strict_neq (field Item "status") (JStr (str "UPLOADING")) then
        mret (status_json 400 (obj [("error",
                JStr (str "invalid status: " ++ to_string (field Item "status")))]))
      else
        head ← s3_send h (HeadObjectCommand (field Item "s3Bucket") (field Item "s3Key"));
        let sizeBytes := nullish (ContentLength head) JNull in
        let storedContentType := nullish (ContentType head) (field Item "contentType") in
        _ ← ddb_send h (UpdateCommand (DDB_TABLE cfg) fileId [
              ("status", SetValue (JStr (str "READY")));
              ("sizeBytes", SetValue sizeBytes);
              ("contentType", SetValue storedContentType)]);
        mret (json (obj [("ok", JBool true); ("fileId", JStr fileId);
                         ("sizeBytes", sizeBytes);
                         ("contentType", storedContentType)]))
  end.

(** [GET /files/:fileId] *)
Definition get_metadata (req : request) : M response :=
  fileId ← lift (requireString (field (req_params req) "fileId") "fileId");
  meta ← ddb_send h (GetCommand (DDB_TABLE cfg) fileId);
  match meta with
  | None => mret (status_json 404 (obj [("error", JStr (str "not found"))]))
  | Some Item => mret (json Item)
  end.

(** [POST /files/:fileId/share] *)
Definition share (req : request) : M response :=
  fileId ← lift (requireString (field (req_params req) "fileId") "fileId");
  meta ← ddb_send h (GetCommand (DDB_TABLE cfg) fileId);
  match meta with
  | None => mret (status_json 404 (obj [("error", JStr (str "not found"))]))
  | Some Item =>
      if strict_neq (field Item "status") (JStr (str "READY")) then
        mret (status_json 400 (obj [("error",
                JStr (str "not ready: " ++ to_string (field Item "status")))]))
      else
        let getCmd :=
          GetObjectCommand (field Item "s3Bucket") (field Item "s3Key")
            (JStr (str "attachment; filename=" ++ [34%N]
                   ++ to_string (field Item "originalFilename") ++ [34%N])) in
        downloadUrl ← getSignedUrl h getCmd (PRESIGN_EXPIRES_SECONDS cfg);
        _ ← ddb_send h (UpdateCommand (DDB_TABLE cfg) fileId [
              ("downloadCount", SetIfNotExistsPlus "downloadCount" 0 1)]);
        mret (json (obj [("fileId", JStr fileId); ("downloadUrl", JStr downloadUrl);
                         ("expiresAt",
                          JNum (Date_now h / 1000 + PRESIGN_EXPIRES_SECONDS cfg))]))
  end.

(** [try { .. } catch (e) { next(e) }], [next] reaching the error
    middleware. *)
Definition handle (m : M response) (w : world) : response * world :=
  match m w with
  | (Ret r, w') => (r, w')
  | (Throw e, w') => (error_handler e, w')
  end.
End Handlers.

Inductive route :=
  | POST_files_presign_upload
  | POST_files_complete
  | GET_files_fileId
  | POST_files_fileId_share.

Definition handler (cfg : config) (h : host) (r : route) : request -> M response :=
  match r with
  | POST_files_presign_upload => presign_upload cfg h
  | POST_files_complete => complete cfg h
  | GET_files_fileId => get_metadata cfg h
  | POST_files_fileId_share => share cfg h
  end.

(** One request served on a table: the response, the table afterwards and
    the calls made, in order. *)
Definition serve (cfg : config) (h : host) (r : route) (req : request)
    (t : table) : response * table * list event :=
  let '(res, w) := handle (handler cfg h r req) (mkWorld t []) in
  (res, tbl w, log w).

Definition response_of (x : response * table * list event) : response := x.1.1.
Definition table_of (x : response * table * list event) : table := x.1.2.
Definition calls_of (x : response * table * list event) : list event := x.2.

(** A sequence of requests, each with the host it runs against. *)
Definition op : Type := host * route * request.

Definition step (cfg : config) (t : table) (o : op) : table :=
  let '(h, r, req) := o in table_of (serve cfg h r req t).

Definition run (cfg : config) (ops : list op) (t : table) : table :=
  fold_left (step cfg) ops t.

(** ** Example configuration, host and requests *)

Definition example_cfg : config := mkConfig (str "bucket") (str "files") 900.

Definition example_host : host :=
  mkHost (str "id-1") 1700000000123 1700000000456
    (fun ms => str (pretty ms))
    (fun _ _ => Ret (str "https://signed.example"))
    (fun _ => Ret (mkHead (JNum 42) (JStr (str "application/pdf"))))
    (fun _ => None)
    (mkError (str "ValidationException") None).

(** A host whose object store fails every call. *)
Definition s3_down : jserror := mkError (str "socket hang up") None.

Definition failing_host : host :=
  mkHost (str "id-2") 1700000000123 1700000000456
    (fun ms => str (pretty ms))
    (fun _ _ => Throw s3_down)
    (fun _ => Throw s3_down)
    (fun _ => None)
    (mkError (str "ValidationException") None).

Definition upload_request (originalFilename contentType : jsval) : request :=
  mkRequest (obj [("originalFilename", originalFilename);
                  ("contentType", contentType)]) ∅.

Definition body_fileId (fileId : jsval) : request :=
  mkRequest (obj [("fileId", fileId)]) ∅.

Definition param_fileId (fileId : jsval) : request :=
  mkRequest ∅ (obj [("fileId", fileId)]).

(** ** Vocabulary of the statements *)

Definition UPLOADING : jsval := JStr (str "UPLOADING").
Definition READY : jsval := JStr (str "READY").

(** The item presign-upload writes for the trimmed fields [name] and [ct]. *)
Definition upload_key (h : host) (name : jsstring) : jsstring :=
  str "uploads/" ++ uuidv4 h ++ str "/" ++ safeName name.

Definition upload_item (cfg : config) (h : host) (name ct : jsstring) : jsobj :=
  obj [("fileId", JStr (uuidv4 h));
       ("s3Bucket", JStr (S3_BUCKET cfg));
       ("s3Key", JStr (upload_key h name));
       ("originalFilename", JStr name);
       ("contentType", JStr ct);
       ("status", UPLOADING);
       ("createdAt", JStr (toISOString h (new_Date h)));
       ("expiresAt", JNum (Date_now h / 1000 + PRESIGN_EXPIRES_SECONDS cfg));
       ("downloadCount", JNum 0)].

(** The item complete-upload leaves, and the one share leaves. *)
Definition completed_item (it : jsobj) (sz ct : jsval) : jsobj :=
  <["contentType" := ct]> (<["sizeBytes" := sz]> (<["status" := READY]> it)).

Definition shared_item (it : jsobj) (n : Z) : jsobj :=
  <["downloadCount" := JNum (n + 1)]> it.

Definition not_found (msg : string) : response :=
  status_json 404 (obj [("error", JStr (str msg))]).

Definition bad_status (prefix : string) (st : jsval) : response :=
  status_json 400 (obj [("error", JStr (str prefix ++ to_string st))]).

Definition disposition (filename : jsval) : jsval :=
  JStr (str "attachment; filename=" ++ [34%N] ++ to_string filename ++ [34%N]).

(** A value [requireString] rejects: anything but a string that is not
    blank. *)
Definition rejected (v : jsval) : Prop :=
  ∀ s, v = JStr s → trim s = [].

Definition required_error (name : string) : response :=
  status_json 400 (obj [("error", JStr (str name ++ str " is required"))]).

(** A call that writes to the metadata table. *)
Definition is_write (ev : event) : bool :=
  match ev with
  | EvDdb (PutCommand _ _) | EvDdb (UpdateCommand _ _ _) => true
  | _ => false
  end.

(** A call to the object store or its presigner. *)
Definition is_presign (ev : event) : bool :=
  match ev with
  | EvPresign _ _ => true
  | _ => false
  end.


(** A string that does not begin with an excluded code unit. *)
Definition starts_kept (s : jsstring) : Prop :=
  match s with
  | [] => True
  | c :: _ => excluded c = false
  end.

(** Replacing every excluded code unit on its own, as the specification's
    example reads. *)
Definition replace_each (s : jsstring) : jsstring :=
  List.map (fun c => if excluded c then 95%N else c) s.


(** The required fields of a route, in the order the handler checks them,
    and where the handler reads them. *)
Definition required_fields (r : route) : list string :=
  match r with
  | POST_files_presign_upload => ["originalFilename"; "contentType"]
  | _ => ["fileId"]
  end.

Definition input (r : route) (req : request) (name : string) : jsval :=
  match r with
  | POST_files_presign_upload | POST_files_complete => field (req_body req) name
  | GET_files_fileId | POST_files_fileId_share => field (req_params req) name
  end.

(** The call [ev] is a call to the object store (or its presigner) to which
    the host replies by throwing [e]. *)
Definition store_call_fails (h : host) (ev : event) (e : jserror) : Prop :=
  match ev with
  | EvPresign cmd expiresIn => presigner h cmd expiresIn = Throw e
  | EvS3 cmd => s3_head h cmd = Throw e
  | EvDdb _ => False
  end.

(** The example table after an upload was staged, and after it was completed. *)
Definition uploaded_table : table :=
  table_of (serve example_cfg example_host POST_files_presign_upload
              (upload_request (JStr (str "report.pdf"))
                 (JStr (str "application/pdf"))) ∅).

Definition completed_table : table :=
  table_of (serve example_cfg example_host POST_files_complete
              (body_fileId (JStr (str "id-1"))) uploaded_table).


(** A host whose metadata store fails every call. *)
Definition store_down : jserror := mkError (str "ResourceNotFoundException") None.

Definition host_without_table : host :=
  mkHost (str "id-3") 1700000000123 1700000000456
    (fun ms => str (pretty ms))
    (fun _ _ => Ret (str "https://signed.example"))
    (fun _ => Ret (mkHead (JNum 42) (JStr (str "application/pdf"))))
    (fun _ => Some store_down)
    (mkError (str "ValidationException") None).

(** ** Vocabulary of the further properties *)

(** A string that does not begin with white space. *)
Definition starts_nonspace (s : jsstring) : Prop :=
  match s with
  | [] => True
  | c :: _ => is_space c = false
  end.

(** The call [ev] is a call to the metadata store that the host fails with
    [e]. *)
Definition metadata_call_fails (h : host) (ev : event) (e : jserror) : Prop :=
  match ev with
  | EvDdb cmd => ddb_fault h cmd = Some e
  | _ => False
  end.

(** The key of the one record a request can touch: the drawn uuid for
    presign-upload, the trimmed fileId for the other routes (none when the
    fileId is refused). *)
Definition addressed (h : host) (r : route) (req : request) : option jsstring :=
  match r with
  | POST_files_presign_upload => Some (uuidv4 h)
  | _ =>
      match requireString (input r req "fileId") "fileId" with
      | Ret id => Some id
      | Throw _ => None
      end
  end.

(** A host whose stores serve every call. *)
Definition serves (h : host) : Prop :=
  (∀ cmd expiresIn, ∃ url, presigner h cmd expiresIn = Ret url)
  ∧ (∀ cmd, ddb_fault h cmd = None).

(** A host whose failures carry no [statusCode], as the errors of the two
    store clients do. *)
Definition errors_without_status (h : host) : Prop :=
  (∀ cmd expiresIn e, presigner h cmd expiresIn = Throw e → statusCode e = None)
  ∧ (∀ cmd e, s3_head h cmd = Throw e → statusCode e = None)
  ∧ (∀ cmd e, ddb_fault h cmd = Some e → statusCode e = None)
  ∧ statusCode (ddb_rejects h) = None.

(** The same share request served once by each host of [hs]. *)
Definition share_ops (hs : list host) (req : request) : list op :=
  List.map (fun h => (h, POST_files_fileId_share, req)) hs.

(** The download count a share call starts from. *)
Definition count_of (it : jsobj) : Z :=
  match it !! "downloadCount" with
  | Some (JNum n) => n
  | _ => 0
  end.

(** ** Start-up *)

(** [process.env], after [dotenv] has loaded the file. *)
Abbreviation environ := (gmap string jsstring).

Definition getenv (env : environ) (name : string) : jsval :=
  match env !! name with
  | Some s => JStr s
  | None => JUndefined
  end.

(** [a || b] *)
Definition or_else (a b : jsval) : jsval := if falsy a then b else a.

Inductive startup_result :=
  | Exited (code : Z)
      (* [process.exit(code)] *)
  | Listening (port app_env app_version region bucket table_name : jsval)
      (expires : option Z).
      (* [app.listen(PORT, ..)] with the configuration read *)

(** The configuration block and the check that follows it. [parseInt] is
    the built-in, [None] standing for [NaN]. *)
Definition startup (parseInt : jsval -> option Z) (env : environ)
    : startup_result :=
  let PORT := or_else (getenv env "PORT") (JNum 8080) in
  let APP_ENV := or_else (getenv env "APP_ENV") (JStr (str "local")) in
  let APP_VERSION := or_else (getenv env "APP_VERSION") (JStr (str "0.0.1-local")) in
  let AWS_REGION := getenv env "AWS_REGION" in
  let S3_BUCKET := getenv env "S3_BUCKET" in
  let DDB_TABLE := getenv env "DDB_TABLE" in
  let PRESIGN_EXPIRES_SECONDS := parseInt (getenv env "PRESIGN_EXPIRES_SECONDS") in
  if falsy AWS_REGION || falsy S3_BUCKET || falsy DDB_TABLE then Exited 1
  else Listening PORT APP_ENV APP_VERSION AWS_REGION S3_BUCKET DDB_TABLE
         PRESIGN_EXPIRES_SECONDS.

(** A variable that is unset or set to the empty string. *)
Definition unset (env : environ) (name : string) : Prop :=
  env !! name = None ∨ env !! name = Some [].

(** * Properties *)

(** ** Strings: [trim] and [safeName] *)

Example trim_both_ends : trim (str "  a b 	") = str "a b".
Proof. by vm_compute. Qed.

Example trim_blank : trim (str " 	 ") = [].
Proof. by vm_compute. Qed.

Example trim_no_break_space : trim [160%N; 97%N; 8233%N] = [97%N].
Proof. by vm_compute. Qed.

Example safeName_kept : safeName (str "a-b_c.9.PDF") = str "a-b_c.9.PDF".
Proof. by vm_compute. Qed.

Example safeName_run : safeName (str "a  (b)") = str "a_b_".
Proof. by vm_compute. Qed.

Example safeName_non_ascii : safeName [233%N; 55357%N; 56832%N; 97%N] = str "_a".
Proof. by vm_compute. Qed.

Example requireString_number :
  requireString (JNum 7) "fileId"
  = Throw (mkError (str "fileId is required") (Some 400)).
Proof. by vm_compute. Qed.

Example requireString_trims :
  requireString (JStr (str " id-1 ")) "fileId" = Ret (str "id-1").
Proof. by vm_compute. Qed.

Example error_handler_default :
  error_handler (mkError [] None)
  = mkResponse 500 (obj [("error", JStr (str "Internal Server Error"))]).
Proof. by vm_compute. Qed.

Example to_string_number : to_string (JNum (-15)) = str "-15".
Proof. by vm_compute. Qed.

Lemma replace_excluded_kept (s : jsstring) :
  Forall (λ c, excluded c = false) s → replace_excluded s = s.
Proof.
  induction 1 as [|c s Hc _ IH]; simp replace_excluded; [done|].
  by rewrite Hc, IH.
Qed.

Lemma replace_excluded_kept_app (keep s : jsstring) :
  Forall (λ c, excluded c = false) keep →
  replace_excluded (keep ++ s) = keep ++ replace_excluded s.
Proof.
  induction 1 as [|c keep Hc _ IH]; [done|].
  simpl. simp replace_excluded. by rewrite Hc, IH.
Qed.

Lemma skip_excluded_run (run rest : jsstring) :
  Forall (λ c, excluded c = true) run →
  starts_kept rest →
  skip_excluded (run ++ rest) = rest.
Proof.
  intros Hrun Hrest. induction Hrun as [|c run Hc _ IH]; simpl.
  - destruct rest as [|c rest']; [done|]. simpl in *. by rewrite Hrest.
  - by rewrite Hc.
Qed.

Lemma replace_excluded_run (run rest : jsstring) :
  run ≠ [] →
  Forall (λ c, excluded c = true) run →
  starts_kept rest →
  replace_excluded (run ++ rest) = 95%N :: replace_excluded rest.
Proof.
  intros Hne Hrun Hrest. destruct run as [|c run]; [done|].
  inversion Hrun as [|? ? Hc Hrun']; subst.
  simpl. simp replace_excluded. rewrite Hc.
  by rewrite skip_excluded_run.
Qed.

Lemma safeName_runs (keep run rest : jsstring) :
  Forall (λ c, excluded c = false) keep →
  Forall (λ c, excluded c = true) run →
  starts_kept rest →
  safeName (keep ++ run ++ rest)
  = keep ++ match run with [] => [] | _ => [95%N] end ++ safeName rest.
Proof.
  intros Hkeep Hrun Hrest. unfold safeName.
  rewrite replace_excluded_kept_app by done. f_equal.
  destruct run as [|c run]; [done|].
  by rewrite replace_excluded_run.
Qed.

(** ** [requireString] *)

Lemma requireString_rejected (v : jsval) (name : string) :
  rejected v →
  requireString v name = Throw (mkError (str name ++ str " is required") (Some 400)).
Proof.
  intros Hrej. destruct v; try done. simpl.
  rewrite (Hrej s eq_refl). simpl. by destruct s.
Qed.

Lemma requireString_accepts (s : jsstring) (name : string) :
  trim s ≠ [] → requireString (JStr s) name = Ret (trim s).
Proof.
  intros Hne. unfold requireString. simpl.
  destruct s as [|c s]; [done|]. simpl orb.
  destruct (trim (c :: s)); done.
Qed.

Lemma requireString_inv (v : jsval) (name : string) (r : jsstring) :
  requireString v name = Ret r → ∃ s, v = JStr s ∧ r = trim s ∧ trim s ≠ [].
Proof.
  destruct v; try done. unfold requireString.
  destruct (falsy (JStr s) || falsy (JStr (trim s))) eqn:E; [done|].
  intros [= <-]. exists s. split_and!; [done..|].
  apply orb_false_elim in E as [_ E]. simpl in E. by destruct (trim s).
Qed.

Lemma requireString_cases (v : jsval) (name : string) :
  (rejected v ∧
   requireString v name = Throw (mkError (str name ++ str " is required") (Some 400)))
  ∨ (∃ s, v = JStr s ∧ trim s ≠ [] ∧ requireString v name = Ret (trim s)).
Proof.
  destruct (requireString v name) as [r|e] eqn:E.
  - right. apply requireString_inv in E as (s & -> & -> & Hne). by exists s.
  - left. assert (rejected v) as Hrej.
    { intros s ->. destruct (trim s) eqn:Es; [done|].
      rewrite requireString_accepts in E; [done|by rewrite Es]. }
    split; [done|]. by rewrite <-E, requireString_rejected.
Qed.

Lemma error_handler_required (name : string) :
  error_handler (mkError (str name ++ str " is required") (Some 400))
  = required_error name.
Proof.
  unfold error_handler, required_error. simpl.
  destruct name; done.
Qed.

(** ** Running the handlers *)

Lemma str_cons (c : ascii) (a : string) :
  str (String c a) = N_of_ascii c :: str a.
Proof. reflexivity. Qed.

Opaque str.
Arguments obj : simpl never.
Arguments safeName : simpl never.
Arguments to_string : simpl never.
Arguments error_handler : simpl never.
Arguments requireString : simpl never.
Arguments eval_operand : simpl never.

Lemma lookup_obj_cons (k a : string) (v : jsval) (l : list (string * jsval)) :
  obj ((a, v) :: l) !! k = if decide (a = k) then Some v else obj l !! k.
Proof. unfold obj. simpl. rewrite lookup_insert. by case_decide. Qed.

Lemma lookup_obj_nil (k : string) : obj [] !! k = None.
Proof. done. Qed.

Lemma field_obj_cons (k a : string) (v : jsval) (l : list (string * jsval)) :
  field (obj ((a, v) :: l)) k = if decide (a = k) then v else field (obj l) k.
Proof. unfold field. rewrite lookup_obj_cons. by case_decide. Qed.

Lemma field_obj_nil (k : string) : field (obj []) k = JUndefined.
Proof. done. Qed.

Ltac obj_simpl :=
  repeat first
    [ rewrite lookup_obj_cons | rewrite field_obj_cons
    | rewrite lookup_obj_nil | rewrite field_obj_nil
    | rewrite decide_True by done | rewrite decide_False by done ].

Ltac run_handlers :=
  unfold serve, response_of, table_of, calls_of, handle, handler,
    presign_upload, complete, get_metadata, share, getSignedUrl, s3_send,
    ddb_send, emit, lift, mbind, M_bind, mret, M_ret,
    upload_item, upload_key, completed_item, shared_item, not_found,
    bad_status, disposition, UPLOADING, READY in *.

Ltac out_simpl := unfold response_of, table_of, calls_of; cbn [fst snd].

(** Case analysis on the membership of a call in an explicit list of calls. *)
Ltac each_call :=
  out_simpl;
  let Hin := fresh "Hin" in
  intros Hin;
  repeat (apply elem_of_cons in Hin as [->|Hin]);
  try (by apply elem_of_nil in Hin);
  simpl; try discriminate.

(** The flattened control flow of presign-upload. *)
Lemma presign_upload_run cfg h req t :
  serve cfg h POST_files_presign_upload req t =
  match requireString (field (req_body req) "originalFilename") "originalFilename" with
  | Throw e => (error_handler e, t, [])
  | Ret name =>
    match requireString (field (req_body req) "contentType") "contentType" with
    | Throw e => (error_handler e, t, [])
    | Ret ct =>
      let sign :=
        EvPresign (PutObjectCommand (JStr (S3_BUCKET cfg))
                     (JStr (upload_key h name)) (JStr ct))
          (PRESIGN_EXPIRES_SECONDS cfg) in
      let put := PutCommand (DDB_TABLE cfg) (upload_item cfg h name ct) in
      match presigner h (PutObjectCommand (JStr (S3_BUCKET cfg))
                           (JStr (upload_key h name)) (JStr ct))
              (PRESIGN_EXPIRES_SECONDS cfg) with
      | Throw e => (error_handler e, t, [sign])
      | Ret url =>
        match ddb_fault h put with
        | Some e => (error_handler e, t, [sign; EvDdb put])
        | None =>
            (json (obj [("fileId", JStr (uuidv4 h)); ("uploadUrl", JStr url);
                        ("s3Key", JStr (upload_key h name));
                        ("expiresAt", JNum (Date_now h / 1000
                                            + PRESIGN_EXPIRES_SECONDS cfg))]),
             <[uuidv4 h := upload_item cfg h name ct]> t,
             [sign; EvDdb put])
        end
      end
    end
  end.
Proof.
  run_handlers.
  destruct (requireString _ "originalFilename") as [name|e]; simpl; [|done].
  destruct (requireString _ "contentType") as [ct|e]; simpl; [|done].
  destruct (presigner _ _ _) as [url|e]; simpl; [|done].
  destruct (ddb_fault _ _) as [e|]; simpl; [done|].
  obj_simpl. done.
Qed.

Lemma eval_set_size (old : jsobj) (a : jsval) :
  eval_operand old (SetValue (nullish a JNull)) = Some (nullish a JNull).
Proof. by destruct a. Qed.

Lemma eval_set_defined (old : jsobj) (v : jsval) :
  v ≠ JUndefined → eval_operand old (SetValue v) = Some v.
Proof. by destruct v. Qed.

(** The flattened control flow of complete-upload. *)
Lemma complete_run cfg h req t :
  serve cfg h POST_files_complete req t =
  match requireString (field (req_body req) "fileId") "fileId" with
  | Throw e => (error_handler e, t, [])
  | Ret id =>
    let get := EvDdb (GetCommand (DDB_TABLE cfg) id) in
    match ddb_fault h (GetCommand (DDB_TABLE cfg) id) with
    | Some e => (error_handler e, t, [get])
    | None =>
      match t !! id with
      | None => (not_found "fileId not found", t, [get])
      | Some it =>
        if strict_neq (field it "status") UPLOADING then
          (bad_status "invalid status: " (field it "status"), t, [get])
        else
          let hd := HeadObjectCommand (field it "s3Bucket") (field it "s3Key") in
          match s3_head h hd with
          | Throw e => (error_handler e, t, [get; EvS3 hd])
          | Ret head =>
            let sz := nullish (ContentLength head) JNull in
            let ct := nullish (ContentType head) (field it "contentType") in
            let upd := UpdateCommand (DDB_TABLE cfg) id
                         [("status", SetValue READY); ("sizeBytes", SetValue sz);
                          ("contentType", SetValue ct)] in
            match ddb_fault h upd with
            | Some e => (error_handler e, t, [get; EvS3 hd; EvDdb upd])
            | None =>
              if bool_decide (ct = JUndefined) then
                (error_handler (ddb_rejects h), t, [get; EvS3 hd; EvDdb upd])
              else
                (json (obj [("ok", JBool true); ("fileId", JStr id);
                            ("sizeBytes", sz); ("contentType", ct)]),
                 <[id := completed_item it sz ct]> t,
                 [get; EvS3 hd; EvDdb upd])
            end
          end
      end
    end
  end.
Proof.
  run_handlers.
  destruct (requireString _ _) as [id|e]; simpl; [|done].
  destruct (ddb_fault h (GetCommand _ _)) as [e|]; simpl; [done|].
  destruct (t !! id) as [it|] eqn:Hit; simpl; [|done].
  destruct (strict_neq _ _); simpl; [done|].
  destruct (s3_head _ _) as [head|e]; simpl; [|done].
  destruct (ddb_fault _ _) as [e|]; simpl; [done|].
  rewrite Hit. simpl. rewrite eval_set_size.
  case_bool_decide as Hct.
  - rewrite Hct. done.
  - rewrite eval_set_defined by done. done.
Qed.

(** The flattened control flow of get-metadata. *)
Lemma get_metadata_run cfg h req t :
  serve cfg h GET_files_fileId req t =
  match requireString (field (req_params req) "fileId") "fileId" with
  | Throw e => (error_handler e, t, [])
  | Ret id =>
    let get := EvDdb (GetCommand (DDB_TABLE cfg) id) in
    match ddb_fault h (GetCommand (DDB_TABLE cfg) id) with
    | Some e => (error_handler e, t, [get])
    | None =>
      match t !! id with
      | None => (not_found "not found", t, [get])
      | Some it => (json it, t, [get])
      end
    end
  end.
Proof.
  run_handlers.
  destruct (requireString _ _) as [id|e]; simpl; [|done].
  destruct (ddb_fault h (GetCommand _ _)) as [e|]; simpl; [done|].
  by destruct (t !! id) as [it|].
Qed.

(** The flattened control flow of share. *)
Lemma share_run cfg h req t :
  serve cfg h POST_files_fileId_share req t =
  match requireString (field (req_params req) "fileId") "fileId" with
  | Throw e => (error_handler e, t, [])
  | Ret id =>
    let get := EvDdb (GetCommand (DDB_TABLE cfg) id) in
    match ddb_fault h (GetCommand (DDB_TABLE cfg) id) with
    | Some e => (error_handler e, t, [get])
    | None =>
      match t !! id with
      | None => (not_found "not found", t, [get])
      | Some it =>
        if strict_neq (field it "status") READY then
          (bad_status "not ready: " (field it "status"), t, [get])
        else
          let cmd := GetObjectCommand (field it "s3Bucket") (field it "s3Key")
                       (disposition (field it "originalFilename")) in
          let sign := EvPresign cmd (PRESIGN_EXPIRES_SECONDS cfg) in
          match presigner h cmd (PRESIGN_EXPIRES_SECONDS cfg) with
          | Throw e => (error_handler e, t, [get; sign])
          | Ret url =>
            let upd := UpdateCommand (DDB_TABLE cfg) id
                         [("downloadCount", SetIfNotExistsPlus "downloadCount" 0 1)] in
            match ddb_fault h upd with
            | Some e => (error_handler e, t, [get; sign; EvDdb upd])
            | None =>
              let ok n :=
                (json (obj [("fileId", JStr id); ("downloadUrl", JStr url);
                            ("expiresAt", JNum (Date_now h / 1000
                                                + PRESIGN_EXPIRES_SECONDS cfg))]),
                 <[id := shared_item it n]> t,
                 [get; sign; EvDdb upd]) in
              match it !! "downloadCount" with
              | None => ok 0
              | Some (JNum n) => ok n
              | Some _ =>
                  (error_handler (ddb_rejects h), t, [get; sign; EvDdb upd])
              end
            end
          end
      end
    end
  end.
Proof.
  run_handlers.
  destruct (requireString _ _) as [id|e]; simpl; [|done].
  destruct (ddb_fault h (GetCommand _ _)) as [e|]; simpl; [done|].
  destruct (t !! id) as [it|] eqn:Hit; simpl; [|done].
  destruct (strict_neq _ _); simpl; [done|].
  destruct (presigner _ _ _) as [url|e]; simpl; [|done].
  destruct (ddb_fault _ _) as [e|]; simpl; [done|].
  rewrite Hit. simpl. unfold eval_operand.
  destruct (it !! "downloadCount") as [[]|]; reflexivity.
Qed.

(** ** The storage key of presign-upload *)

Lemma presign_upload_key cfg h req t key :
  field (body (response_of (serve cfg h POST_files_presign_upload req t))) "s3Key"
    = JStr key →
  ∃ s, field (req_body req) "originalFilename" = JStr s
       ∧ key = str "uploads/" ++ uuidv4 h ++ str "/" ++ safeName (trim s).
Proof.
  rewrite presign_upload_run.
  destruct (requireString_cases (field (req_body req) "originalFilename")
              "originalFilename") as [[_ ->]|(s & Hs & _ & ->)].
  { rewrite error_handler_required. done. }
  destruct (requireString _ "contentType") as [ct|e].
  2: { unfold error_handler. simpl. obj_simpl. done. }
  simpl. destruct (presigner _ _ _) as [url|e].
  2: { unfold error_handler. simpl. obj_simpl. done. }
  destruct (ddb_fault _ _) as [e|].
  { unfold error_handler. simpl. obj_simpl. done. }
  unfold response_of. simpl. obj_simpl. intros [= <-]. by exists s.
Qed.

(** C1, as amended: the storage-key segment is the trimmed originalFilename
    in which every maximal run of code units outside [A-Za-z0-9_.-] is
    replaced by ONE underscore, and every other code unit is kept. For a
    trimmed name [keep ++ run ++ rest], with [keep] free of excluded code
    units, [run] made of excluded ones and [rest] not starting with one, the
    key sent back is [uploads/<fileId>/] followed by [keep], one underscore
    when [run] is not empty, and the segment of [rest]. *)
Theorem C1_key_segment_one_underscore_per_run
    (cfg : config) (h : host) (req : request) (t : table)
    (s keep run rest key : jsstring) :
  field (req_body req) "originalFilename" = JStr s →
  trim s = keep ++ run ++ rest →
  Forall (λ c, excluded c = false) keep →
  Forall (λ c, excluded c = true) run →
  starts_kept rest →
  field (body (response_of (serve cfg h POST_files_presign_upload req t))) "s3Key"
    = JStr key →
  key = str "uploads/" ++ uuidv4 h ++ str "/"
        ++ keep ++ match run with [] => [] | _ => str "_" end ++ safeName rest.
Proof.
  intros Hs Htrim Hkeep Hrun Hrest Hkey.
  apply presign_upload_key in Hkey as (s' & Hs' & ->).
  rewrite Hs in Hs'. injection Hs' as <-.
  rewrite Htrim, safeName_runs by done.
  by destruct run.
Qed.

Lemma C1_witness :
  str "uploads/id-1/file_1_.pdf"
  = str "uploads/" ++ uuidv4 example_host ++ str "/"
    ++ str "file" ++ str "_" ++ safeName (str "1).pdf").
Proof.
  apply (C1_key_segment_one_underscore_per_run example_cfg example_host
           (upload_request (JStr (str " file (1).pdf")) (JStr (str "application/pdf")))
           ∅ (str " file (1).pdf") (str "file") (str " (") (str "1).pdf")).
  - vm_compute; reflexivity.
  - vm_compute; reflexivity.
  - vm_compute; repeat constructor.
  - vm_compute; repeat constructor.
  - vm_compute; reflexivity.
  - vm_compute; reflexivity.
Defined.

(** C1, as stated, fails: in "my file (1).pdf" the space and the opening
    parenthesis are adjacent and become one underscore, so the key segment
    is "my_file_1_.pdf" and not "my_file__1_.pdf". *)
Lemma C1_counterexample :
  let res := response_of (serve example_cfg example_host POST_files_presign_upload
               (upload_request (JStr (str "my file (1).pdf"))
                  (JStr (str "application/pdf"))) ∅) in
  field (body res) "s3Key" = JStr (str "uploads/id-1/my_file_1_.pdf")
  ∧ field (body res) "s3Key" ≠ JStr (str "uploads/id-1/" ++ str "my_file__1_.pdf")
  ∧ safeName (str "my file (1).pdf") ≠ replace_each (str "my file (1).pdf").
Proof.
  split_and!.
  - vm_compute; reflexivity.
  - vm_compute. discriminate.
  - vm_compute. discriminate.
Qed.

(** ** Bodies of failure responses *)

Lemma error_handler_field (e : jserror) (k : string) :
  k ≠ "error" → field (body (error_handler e)) k = JUndefined.
Proof.
  intros Hk. unfold error_handler, status_json. simpl.
  rewrite field_obj_cons, decide_False by done. done.
Qed.

Lemma not_found_field (msg k : string) :
  k ≠ "error" → field (body (not_found msg)) k = JUndefined.
Proof.
  intros Hk. unfold not_found, status_json. simpl.
  rewrite field_obj_cons, decide_False by done. done.
Qed.

Lemma bad_status_field (prefix : string) (st : jsval) (k : string) :
  k ≠ "error" → field (body (bad_status prefix st)) k = JUndefined.
Proof.
  intros Hk. unfold bad_status, status_json. simpl.
  rewrite field_obj_cons, decide_False by done. done.
Qed.

Lemma strict_neq_false (a b : jsval) : strict_neq a b = false ↔ a = b.
Proof.
  unfold strict_neq. rewrite negb_false_iff. apply bool_decide_eq_true.
Qed.

Lemma strict_neq_true (a b : jsval) : strict_neq a b = true ↔ a ≠ b.
Proof.
  unfold strict_neq. rewrite negb_true_iff. apply bool_decide_eq_false.
Qed.

Lemma field_insert (it : jsobj) (a k : string) (v : jsval) :
  field (<[a := v]> it) k = if decide (a = k) then v else field it k.
Proof. unfold field. rewrite lookup_insert. by case_decide. Qed.

(** ** Presign-upload *)



(** ** Complete-upload *)

Lemma to_string_str (s : jsstring) : to_string (JStr s) = s.
Proof. done. Qed.

Lemma invalid_status_READY :
  str "invalid status: " ++ str "READY" = str "invalid status: READY".
Proof. by vm_compute. Qed.

(** A complete-upload that answers [ok: true] took the success path. *)
Lemma complete_ok_inv cfg h req t id it :
  requireString (field (req_body req) "fileId") "fileId" = Ret id →
  t !! id = Some it →
  field (body (response_of (serve cfg h POST_files_complete req t))) "ok"
    = JBool true →
  ∃ head,
    field it "status" = UPLOADING
    ∧ s3_head h (HeadObjectCommand (field it "s3Bucket") (field it "s3Key"))
      = Ret head
    ∧ serve cfg h POST_files_complete req t
      = (json (obj [("ok", JBool true); ("fileId", JStr id);
                    ("sizeBytes", nullish (ContentLength head) JNull);
                    ("contentType",
                     nullish (ContentType head) (field it "contentType"))]),
         <[id := completed_item it (nullish (ContentLength head) JNull)
                   (nullish (ContentType head) (field it "contentType"))]> t,
         [EvDdb (GetCommand (DDB_TABLE cfg) id);
          EvS3 (HeadObjectCommand (field it "s3Bucket") (field it "s3Key"));
          EvDdb (UpdateCommand (DDB_TABLE cfg) id
                   [("status", SetValue READY);
                    ("sizeBytes", SetValue (nullish (ContentLength head) JNull));
                    ("contentType",
                     SetValue (nullish (ContentType head)
                                 (field it "contentType")))])]).
Proof.
  intros Hid Hit. rewrite complete_run, Hid, Hit. simpl.
  destruct (ddb_fault h (GetCommand _ _)) as [e|].
  { out_simpl. by rewrite error_handler_field. }
  destruct (strict_neq _ _) eqn:Hst.
  { out_simpl. by rewrite bad_status_field. }
  apply strict_neq_false in Hst.
  destruct (s3_head _ _) as [head|e].
  2: { out_simpl. by rewrite error_handler_field. }
  destruct (ddb_fault _ _) as [e|].
  { out_simpl. by rewrite error_handler_field. }
  case_bool_decide.
  { out_simpl. by rewrite error_handler_field. }
  intros _. by exists head.
Qed.

(** C2: a complete-upload call that succeeds on a record whose status is
    UPLOADING had a head reply, and sets exactly three attributes of that
    record: status to READY, sizeBytes to the reported ContentLength (null
    when there is none) and contentType to the reported ContentType (the
    declared one when there is none); every other attribute and every other
    record is as before, and the 200 response carries ok, fileId and the new
    sizeBytes and contentType. *)
Theorem C2_complete_upload_sets_ready_size_type
    (cfg : config) (h : host) (req : request) (t : table)
    (id : jsstring) (it : jsobj) :
  requireString (field (req_body req) "fileId") "fileId" = Ret id →
  t !! id = Some it →
  field it "status" = JStr (str "UPLOADING") →
  field (body (response_of (serve cfg h POST_files_complete req t))) "ok"
    = JBool true →
  ∃ head,
    s3_head h (HeadObjectCommand (field it "s3Bucket") (field it "s3Key"))
      = Ret head
    ∧ let sz := nullish (ContentLength head) JNull in
      let ct := nullish (ContentType head) (field it "contentType") in
      let out := serve cfg h POST_files_complete req t in
      response_of out
        = mkResponse 200 (obj [("ok", JBool true); ("fileId", JStr id);
                               ("sizeBytes", sz); ("contentType", ct)])
      ∧ (∃ it', table_of out !! id = Some it'
                ∧ field it' "status" = JStr (str "READY")
                ∧ field it' "sizeBytes" = sz
                ∧ field it' "contentType" = ct
                ∧ ∀ a, a ≠ "status" → a ≠ "sizeBytes" → a ≠ "contentType" →
                       it' !! a = it !! a)
      ∧ (∀ id', id' ≠ id → table_of out !! id' = t !! id').
Proof.
  intros Hid Hit _ Hok.
  destruct (complete_ok_inv _ _ _ _ _ _ Hid Hit Hok) as (head & _ & Hhead & ->).
  exists head. split; [done|]. unfold response_of, table_of. simpl.
  split_and!.
  - done.
  - eexists. split; [apply lookup_insert_eq|].
    unfold completed_item, READY. rewrite !field_insert. simpl.
    split_and!; [done..|].
    intros a H1 H2 H3. by rewrite !lookup_insert_ne.
  - intros id' Hne. by rewrite lookup_insert_ne.
Qed.

Lemma C2_witness :
  ∃ head,
    s3_head example_host
      (HeadObjectCommand (JStr (str "bucket"))
         (JStr (str "uploads/id-1/report.pdf"))) = Ret head
    ∧ response_of (serve example_cfg example_host POST_files_complete
                     (body_fileId (JStr (str "id-1"))) uploaded_table)
      = mkResponse 200
          (obj [("ok", JBool true); ("fileId", JStr (str "id-1"));
                ("sizeBytes", nullish (ContentLength head) JNull);
                ("contentType",
                 nullish (ContentType head) (JStr (str "application/pdf")))]).
Proof.
  destruct (C2_complete_upload_sets_ready_size_type example_cfg example_host
              (body_fileId (JStr (str "id-1"))) uploaded_table (str "id-1")
              (upload_item example_cfg example_host (str "report.pdf")
                 (str "application/pdf")))
    as (head & Hhead & Hres & _).
  - vm_compute; reflexivity.
  - vm_compute; reflexivity.
  - vm_compute; reflexivity.
  - vm_compute; reflexivity.
  - exists head. split; [exact Hhead | exact Hres].
Defined.

(** C3: with the fileId accepted and the metadata store serving the read,
    complete-upload answers 404 when the table has no record under that
    fileId, and 400 with "invalid status: <status>" when the record's status
    is not UPLOADING, in both cases without touching the table. After a
    first call that succeeded the record is READY, and a second call on the
    same fileId answers 400 "invalid status: READY" and leaves the table as
    the first call left it. *)
Theorem C3_complete_upload_only_from_uploading
    (cfg : config) (h h2 : host) (req req2 : request) (t : table)
    (id : jsstring) :
  requireString (field (req_body req) "fileId") "fileId" = Ret id →
  requireString (field (req_body req2) "fileId") "fileId" = Ret id →
  ddb_fault h (GetCommand (DDB_TABLE cfg) id) = None →
  ddb_fault h2 (GetCommand (DDB_TABLE cfg) id) = None →
  let out := serve cfg h POST_files_complete req t in
  let out2 := serve cfg h2 POST_files_complete req2 (table_of out) in
  (t !! id = None →
     response_of out
       = mkResponse 404 (obj [("error", JStr (str "fileId not found"))])
     ∧ table_of out = t)
  ∧ (∀ it, t !! id = Some it → field it "status" ≠ JStr (str "UPLOADING") →
       response_of out
         = mkResponse 400 (obj [("error",
             JStr (str "invalid status: " ++ to_string (field it "status")))])
       ∧ table_of out = t
       ∧ Forall (λ ev, is_write ev = false) (calls_of out))
  ∧ (∀ it, t !! id = Some it →
       field (body (response_of out)) "ok" = JBool true →
       field it "status" = JStr (str "UPLOADING")
       ∧ (∃ it', table_of out !! id = Some it'
                 ∧ field it' "status" = JStr (str "READY"))
       ∧ response_of out2
         = mkResponse 400 (obj [("error", JStr (str "invalid status: READY"))])
       ∧ table_of out2 = table_of out
       ∧ Forall (λ ev, is_write ev = false) (calls_of out2)).
Proof.
  intros Hid Hid2 Hget Hget2 out out2. split_and!.
  - intros Hnone. subst out. rewrite complete_run, Hid. simpl.
    by rewrite Hget, Hnone.
  - intros it Hit Hst. subst out. rewrite complete_run, Hid. simpl.
    rewrite Hget, Hit.
    apply strict_neq_true in Hst. unfold UPLOADING. rewrite Hst.
    split_and!; [done..|]. unfold calls_of; simpl. by repeat constructor.
  - intros it Hit Hok.
    destruct (complete_ok_inv _ _ _ _ _ _ Hid Hit Hok) as (head & Hst & _ & Hout).
    set (it' := completed_item it (nullish (ContentLength head) JNull)
                  (nullish (ContentType head) (field it "contentType"))) in *.
    assert (table_of out = <[id := it']> t) as Htbl
      by (subst out; by rewrite Hout).
    assert (field it' "status" = READY) as Hready
      by (subst it'; unfold completed_item; by rewrite !field_insert).
    assert (out2 = (bad_status "invalid status: " READY, table_of out,
                    [EvDdb (GetCommand (DDB_TABLE cfg) id)])) as ->.
    { subst out2. rewrite complete_run, Hid2. simpl.
      rewrite Hget2, Htbl, lookup_insert_eq, Hready.
      by replace (strict_neq READY UPLOADING) with true by (by vm_compute). }
    split_and!.
    + done.
    + exists it'. by rewrite Htbl, lookup_insert_eq.
    + out_simpl. unfold bad_status, READY. rewrite to_string_str.
      by rewrite invalid_status_READY.
    + done.
    + out_simpl. by repeat constructor.
Qed.

Lemma C3_witness :
  response_of (serve example_cfg example_host POST_files_complete
                 (body_fileId (JStr (str "id-1"))) completed_table)
  = mkResponse 400 (obj [("error", JStr (str "invalid status: READY"))]).
Proof.
  destruct (C3_complete_upload_only_from_uploading example_cfg example_host example_host
              (body_fileId (JStr (str "id-1"))) (body_fileId (JStr (str "id-1")))
              uploaded_table (str "id-1"))
    as (_ & _ & Htwice).
  - vm_compute; reflexivity.
  - vm_compute; reflexivity.
  - reflexivity.
  - reflexivity.
  - destruct (Htwice (upload_item example_cfg example_host (str "report.pdf")
                        (str "application/pdf")))
      as (_ & _ & Hsecond & _).
    + vm_compute; reflexivity.
    + vm_compute; reflexivity.
    + exact Hsecond.
Defined.

(** ** Share *)

(** A share that sent the object-store presigner a command found a READY
    record under the requested fileId. *)
Lemma share_presign_inv cfg h req t ev :
  ev ∈ calls_of (serve cfg h POST_files_fileId_share req t) →
  is_presign ev = true →
  ∃ id it,
    requireString (field (req_params req) "fileId") "fileId" = Ret id
    ∧ t !! id = Some it
    ∧ field it "status" = READY
    ∧ ev = EvPresign (GetObjectCommand (field it "s3Bucket") (field it "s3Key")
                        (disposition (field it "originalFilename")))
             (PRESIGN_EXPIRES_SECONDS cfg).
Proof.
  rewrite share_run.
  destruct (requireString _ _) as [id|e]; simpl.
  2: { out_simpl. by intros ?%elem_of_nil. }
  destruct (ddb_fault h (GetCommand _ _)) as [e|]; [by each_call|].
  destruct (t !! id) as [it|] eqn:Hit; [|by each_call].
  destruct (strict_neq _ _) eqn:Hst; [by each_call|].
  apply strict_neq_false in Hst.
  destruct (presigner _ _ _) as [url|e]; [|each_call; eauto 10].
  destruct (ddb_fault _ _) as [e|]; [each_call; eauto 10|].
  destruct (it !! "downloadCount") as [[]|]; each_call; eauto 10.
Qed.

(** A share that answers with a downloadUrl took the success path. *)
Lemma share_ok_inv cfg h req t id it url :
  requireString (field (req_params req) "fileId") "fileId" = Ret id →
  t !! id = Some it →
  field (body (response_of (serve cfg h POST_files_fileId_share req t)))
    "downloadUrl" = JStr url →
  ∃ n,
    (it !! "downloadCount" = None ∧ n = 0 ∨ it !! "downloadCount" = Some (JNum n))
    ∧ field it "status" = READY
    ∧ presigner h (GetObjectCommand (field it "s3Bucket") (field it "s3Key")
                     (disposition (field it "originalFilename")))
        (PRESIGN_EXPIRES_SECONDS cfg) = Ret url
    ∧ response_of (serve cfg h POST_files_fileId_share req t)
      = json (obj [("fileId", JStr id); ("downloadUrl", JStr url);
                   ("expiresAt", JNum (Date_now h / 1000
                                       + PRESIGN_EXPIRES_SECONDS cfg))])
    ∧ table_of (serve cfg h POST_files_fileId_share req t)
      = <[id := shared_item it n]> t.
Proof.
  intros Hid Hit. rewrite share_run, Hid, Hit. simpl.
  destruct (ddb_fault h (GetCommand _ _)) as [e|].
  { out_simpl. by rewrite error_handler_field. }
  destruct (strict_neq _ _) eqn:Hst.
  { out_simpl. by rewrite bad_status_field. }
  apply strict_neq_false in Hst.
  destruct (presigner _ _ _) as [url'|e].
  2: { out_simpl. by rewrite error_handler_field. }
  destruct (ddb_fault _ _) as [e|].
  { out_simpl. by rewrite error_handler_field. }
  destruct (it !! "downloadCount") as [[| | |n| |]|] eqn:Hcount; out_simpl;
    try (by rewrite error_handler_field).
  - unfold json. cbn [body]. obj_simpl. intros [= ->]. exists n. eauto 10.
  - unfold json. cbn [body]. obj_simpl. intros [= ->]. exists 0. eauto 10.
Qed.

(** C4: share sends a command to the presigner only for a record that exists
    and is READY, and a response that carries a downloadUrl comes from such
    a record. With the fileId accepted and the read served, it answers 404
    when there is no record, and 400 with "not ready: <status>" when the
    status is not READY ("not ready: UPLOADING" for an uploading record); in
    both cases the only call made is the read and the table is unchanged. *)
Theorem C4_share_only_when_ready
    (cfg : config) (h : host) (req : request) (t : table) :
  let out := serve cfg h POST_files_fileId_share req t in
  (∀ ev, ev ∈ calls_of out → is_presign ev = true →
     ∃ id it, requireString (field (req_params req) "fileId") "fileId" = Ret id
              ∧ t !! id = Some it ∧ field it "status" = JStr (str "READY"))
  ∧ (∀ id it url,
       requireString (field (req_params req) "fileId") "fileId" = Ret id →
       t !! id = Some it →
       field (body (response_of out)) "downloadUrl" = JStr url →
       field it "status" = JStr (str "READY"))
  ∧ (∀ id,
       requireString (field (req_params req) "fileId") "fileId" = Ret id →
       ddb_fault h (GetCommand (DDB_TABLE cfg) id) = None →
       (t !! id = None →
          out = (mkResponse 404 (obj [("error", JStr (str "not found"))]), t,
                 [EvDdb (GetCommand (DDB_TABLE cfg) id)]))
       ∧ (∀ it, t !! id = Some it → field it "status" ≠ JStr (str "READY") →
            out = (mkResponse 400 (obj [("error",
                     JStr (str "not ready: " ++ to_string (field it "status")))]),
                   t, [EvDdb (GetCommand (DDB_TABLE cfg) id)]))
       ∧ (∀ it, t !! id = Some it → field it "status" = JStr (str "UPLOADING") →
            out = (mkResponse 400 (obj [("error",
                     JStr (str "not ready: UPLOADING"))]),
                   t, [EvDdb (GetCommand (DDB_TABLE cfg) id)]))).
Proof.
  intros out. split_and!.
  - intros ev Hin Hp.
    destruct (share_presign_inv _ _ _ _ _ Hin Hp) as (id & it & ? & ? & ? & _).
    by exists id, it.
  - intros id it url Hid Hit Hurl.
    by destruct (share_ok_inv _ _ _ _ _ _ _ Hid Hit Hurl) as (n & _ & ? & _).
  - intros id Hid Hget.
    assert (∀ it, t !! id = Some it → field it "status" ≠ READY →
              out = (bad_status "not ready: " (field it "status"), t,
                     [EvDdb (GetCommand (DDB_TABLE cfg) id)])) as Hbad.
    { intros it Hit Hst. subst out. rewrite share_run, Hid. simpl.
      rewrite Hget, Hit. apply strict_neq_true in Hst. by rewrite Hst. }
    split_and!.
    + intros Hnone. subst out. rewrite share_run, Hid. simpl.
      by rewrite Hget, Hnone.
    + done.
    + intros it Hit Hst. rewrite (Hbad it Hit) by (by rewrite Hst).
      rewrite Hst. unfold bad_status. rewrite to_string_str.
      by replace (str "not ready: " ++ str "UPLOADING")
        with (str "not ready: UPLOADING") by (by vm_compute).
Qed.

Lemma C4_witness :
  serve example_cfg example_host POST_files_fileId_share
    (param_fileId (JStr (str "id-1"))) uploaded_table
  = (mkResponse 400 (obj [("error", JStr (str "not ready: UPLOADING"))]),
     uploaded_table,
     [EvDdb (GetCommand (str "files") (str "id-1"))]).
Proof.
  destruct (C4_share_only_when_ready example_cfg example_host
              (param_fileId (JStr (str "id-1"))) uploaded_table)
    as (_ & _ & Hchecks).
  destruct (Hchecks (str "id-1")) as (_ & _ & Huploading).
  - vm_compute; reflexivity.
  - reflexivity.
  - apply (Huploading (upload_item example_cfg example_host (str "report.pdf")
                         (str "application/pdf"))).
    + vm_compute; reflexivity.
    + vm_compute; reflexivity.
Defined.

(** C5: a share call that succeeds on a READY record leaves that record with
    downloadCount one more than before (1 when the record had no
    downloadCount), every other attribute of the record as before, and every
    other record as before. *)
Theorem C5_share_increments_downloadCount
    (cfg : config) (h : host) (req : request) (t : table)
    (id : jsstring) (it : jsobj) (url : jsstring) :
  requireString (field (req_params req) "fileId") "fileId" = Ret id →
  t !! id = Some it →
  field it "status" = JStr (str "READY") →
  let out := serve cfg h POST_files_fileId_share req t in
  field (body (response_of out)) "downloadUrl" = JStr url →
  ∃ n it',
    (it !! "downloadCount" = None ∧ n = 0 ∨ it !! "downloadCount" = Some (JNum n))
    ∧ table_of out !! id = Some it'
    ∧ it' !! "downloadCount" = Some (JNum (n + 1))
    ∧ (∀ a, a ≠ "downloadCount" → it' !! a = it !! a)
    ∧ (∀ id', id' ≠ id → table_of out !! id' = t !! id').
Proof.
  intros Hid Hit _ out Hurl.
  destruct (share_ok_inv _ _ _ _ _ _ _ Hid Hit Hurl) as (n & Hn & _ & _ & _ & Htbl).
  exists n, (shared_item it n). subst out. rewrite Htbl. split_and!.
  - done.
  - apply lookup_insert_eq.
  - apply lookup_insert_eq.
  - intros a Ha. unfold shared_item. by rewrite lookup_insert_ne.
  - intros id' Hne. by rewrite lookup_insert_ne.
Qed.

Lemma C5_witness :
  ∃ it', table_of (serve example_cfg example_host POST_files_fileId_share
                     (param_fileId (JStr (str "id-1"))) completed_table)
           !! str "id-1" = Some it'
         ∧ it' !! "downloadCount" = Some (JNum 1).
Proof.
  destruct (C5_share_increments_downloadCount example_cfg example_host
              (param_fileId (JStr (str "id-1"))) completed_table (str "id-1")
              (completed_item
                 (upload_item example_cfg example_host (str "report.pdf")
                    (str "application/pdf"))
                 (JNum 42) (JStr (str "application/pdf")))
              (str "https://signed.example"))
    as (n & it' & Hn & Hit' & Hcount & _).
  - vm_compute; reflexivity.
  - vm_compute; reflexivity.
  - vm_compute; reflexivity.
  - vm_compute; reflexivity.
  - exists it'. split; [exact Hit'|].
    destruct Hn as [[Hnone _]|Hsome].
    + vm_compute in Hnone. discriminate Hnone.
    + vm_compute in Hsome. injection Hsome as <-. exact Hcount.
Defined.

(** ** Validation *)

Lemma requireString_not_rejected (v : jsval) (name : string) :
  ¬ rejected v → ∃ s, requireString v name = Ret s.
Proof.
  intros Hv. destruct (requireString_cases v name) as [[? _]|(s & _ & _ & ->)];
    [done|by eexists].
Qed.

(** C8, as amended: on every route, when a required field is missing, not a
    string or blank, and every field the handler checks before it is
    acceptable, the request is answered 400 with the message
    "<field> is required" naming that field, no call is made to either
    store and the table is unchanged. (On presign-upload originalFilename is
    checked before contentType, so a request in which both are bad names
    originalFilename.) *)
Theorem C8_first_bad_required_field_is_named
    (cfg : config) (h : host) (r : route) (req : request) (t : table)
    (before after : list string) (name : string) :
  required_fields r = before ++ name :: after →
  Forall (λ f, ¬ rejected (input r req f)) before →
  rejected (input r req name) →
  serve cfg h r req t
  = (mkResponse 400 (obj [("error", JStr (str name ++ str " is required"))]),
     t, []).
Proof.
  intros Hfields Hbefore Hbad.
  destruct r; simpl in Hfields.
  - destruct before as [|f1 [|f2 [|f3 before]]]; simplify_eq/=.
    + rewrite presign_upload_run, requireString_rejected by done.
      by rewrite error_handler_required.
    + apply Forall_cons_1 in Hbefore as [Hfn _].
      destruct (requireString_not_rejected _ "originalFilename" Hfn) as [s Hs].
      rewrite presign_upload_run, Hs, requireString_rejected by done.
      by rewrite error_handler_required.
  - destruct before as [|f1 [|f2 before]]; simplify_eq/=.
    rewrite complete_run, requireString_rejected by done.
    by rewrite error_handler_required.
  - destruct before as [|f1 [|f2 before]]; simplify_eq/=.
    rewrite get_metadata_run, requireString_rejected by done.
    by rewrite error_handler_required.
  - destruct before as [|f1 [|f2 before]]; simplify_eq/=.
    rewrite share_run, requireString_rejected by done.
    by rewrite error_handler_required.
Qed.

Lemma C8_witness :
  serve example_cfg example_host POST_files_presign_upload
    (upload_request (JStr (str "report.pdf")) (JStr (str "   "))) ∅
  = (mkResponse 400 (obj [("error", JStr (str "contentType" ++ str " is required"))]),
     ∅, []).
Proof.
  apply (C8_first_bad_required_field_is_named example_cfg example_host
           POST_files_presign_upload
           (upload_request (JStr (str "report.pdf")) (JStr (str "   "))) ∅
           ["originalFilename"] [] "contentType").
  - reflexivity.
  - constructor; [|constructor].
    intros Hrej. specialize (Hrej (str "report.pdf") eq_refl).
    vm_compute in Hrej. discriminate Hrej.
  - intros s Hs. vm_compute in Hs. injection Hs as <-. vm_compute; reflexivity.
Defined.

(** C8, as stated, fails for contentType: a presign-upload request with an
    empty JSON body has no contentType, yet the message names
    originalFilename, the field checked first. *)
Lemma C8_counterexample :
  let req := mkRequest ∅ ∅ in
  let res := response_of (serve example_cfg example_host
                            POST_files_presign_upload req ∅) in
  rejected (field (req_body req) "contentType")
  ∧ res = mkResponse 400 (obj [("error", JStr (str "originalFilename is required"))])
  ∧ res ≠ mkResponse 400 (obj [("error", JStr (str "contentType is required"))]).
Proof.
  split_and!.
  - by intros s Hs.
  - vm_compute; reflexivity.
  - vm_compute. discriminate.
Qed.

(** ** Failures of the object store *)

Ltac failed_call Hfail :=
  cbn [store_call_fails] in Hfail; try done;
  try (split_and!; [congruence | done | by repeat constructor]);
  try congruence.

(** C9: on every route, when a call the handler makes to the object store
    fails, the response is the error middleware's rendering of that failure,
    the table is the one the request started from, and the handler made no
    writing call to the metadata store: in presign-upload the put, in
    complete-upload and share the update, come only after the object-store
    call has returned. *)
Theorem C9_object_store_failure_writes_nothing
    (cfg : config) (h : host) (r : route) (req : request) (t : table)
    (ev : event) (e : jserror) :
  ev ∈ calls_of (serve cfg h r req t) →
  store_call_fails h ev e →
  response_of (serve cfg h r req t) = error_handler e
  ∧ table_of (serve cfg h r req t) = t
  ∧ Forall (λ c, is_write c = false) (calls_of (serve cfg h r req t)).
Proof.
  intros Hin Hfail. revert Hin. destruct r.
  - rewrite presign_upload_run.
    destruct (requireString _ "originalFilename") as [name|?]; [|by each_call].
    destruct (requireString _ "contentType") as [ct|?]; [|by each_call].
    simpl. destruct (presigner _ _ _) as [url|e'] eqn:Hsign.
    + destruct (ddb_fault _ _) as [e'|]; each_call; failed_call Hfail.
    + each_call; failed_call Hfail.
  - rewrite complete_run.
    destruct (requireString _ _) as [id|?]; [|by each_call].
    simpl. destruct (ddb_fault h (GetCommand _ _)) as [e'|].
    { each_call; failed_call Hfail. }
    destruct (t !! id) as [it|]; [|each_call; failed_call Hfail].
    destruct (strict_neq _ _); [each_call; failed_call Hfail|].
    destruct (s3_head _ _) as [head|e'] eqn:Hhead.
    + destruct (ddb_fault _ _) as [e'|]; [each_call; failed_call Hfail|].
      case_bool_decide; each_call; failed_call Hfail.
    + each_call; failed_call Hfail.
  - rewrite get_metadata_run.
    destruct (requireString _ _) as [id|?]; [|by each_call].
    simpl. destruct (ddb_fault h (GetCommand _ _)) as [e'|].
    { each_call; failed_call Hfail. }
    destruct (t !! id) as [it|]; each_call; failed_call Hfail.
  - rewrite share_run.
    destruct (requireString _ _) as [id|?]; [|by each_call].
    simpl. destruct (ddb_fault h (GetCommand _ _)) as [e'|].
    { each_call; failed_call Hfail. }
    destruct (t !! id) as [it|]; [|each_call; failed_call Hfail].
    destruct (strict_neq _ _); [each_call; failed_call Hfail|].
    destruct (presigner _ _ _) as [url|e'] eqn:Hsign.
    + destruct (ddb_fault _ _) as [e'|]; [each_call; failed_call Hfail|].
      destruct (it !! "downloadCount") as [[]|]; each_call; failed_call Hfail.
    + each_call; failed_call Hfail.
Qed.

Lemma C9_witness :
  response_of (serve example_cfg failing_host POST_files_complete
                 (body_fileId (JStr (str "id-1"))) uploaded_table)
    = error_handler s3_down
  ∧ table_of (serve example_cfg failing_host POST_files_complete
                (body_fileId (JStr (str "id-1"))) uploaded_table)
    = uploaded_table.
Proof.
  destruct (C9_object_store_failure_writes_nothing example_cfg failing_host
              POST_files_complete (body_fileId (JStr (str "id-1")))
              uploaded_table
              (EvS3 (HeadObjectCommand (JStr (str "bucket"))
                       (JStr (str "uploads/id-1/report.pdf"))))
              s3_down)
    as (Hres & Htbl & _).
  - apply list_elem_of_In. vm_compute. right. left. reflexivity.
  - reflexivity.
  - split; [exact Hres | exact Htbl].
Defined.

(** ** The stored filename *)

(** A presign-upload that answers with a fileId took the success path. *)
Lemma presign_upload_ok_inv cfg h req t id :
  field (body (response_of (serve cfg h POST_files_presign_upload req t)))
    "fileId" = JStr id →
  ∃ s c,
    field (req_body req) "originalFilename" = JStr s
    ∧ field (req_body req) "contentType" = JStr c
    ∧ id = uuidv4 h
    ∧ table_of (serve cfg h POST_files_presign_upload req t)
      = <[uuidv4 h := upload_item cfg h (trim s) (trim c)]> t.
Proof.
  rewrite presign_upload_run.
  destruct (requireString_cases (field (req_body req) "originalFilename")
              "originalFilename") as [[_ ->]|(s & Hs & _ & ->)].
  { out_simpl. by rewrite error_handler_field. }
  destruct (requireString_cases (field (req_body req) "contentType")
              "contentType") as [[_ ->]|(c & Hc & _ & ->)].
  { out_simpl. by rewrite error_handler_field. }
  simpl. destruct (presigner _ _ _) as [url|e].
  2: { out_simpl. by rewrite error_handler_field. }
  destruct (ddb_fault _ _) as [e|].
  { out_simpl. by rewrite error_handler_field. }
  out_simpl. unfold json. cbn [body]. obj_simpl. intros [= <-].
  by exists s, c.
Qed.

(** C10, as amended: the record presign-upload writes holds the
    user-supplied originalFilename TRIMMED of leading and trailing white
    space (and otherwise unsanitized), and share passes the presigner a
    get-object command whose content disposition is
    attachment; filename="<stored originalFilename>". *)
Theorem C10_trimmed_filename_stored_and_used_on_share
    (cfg : config) (h : host) (req : request) (t : table) :
  (∀ s id,
     field (req_body req) "originalFilename" = JStr s →
     field (body (response_of (serve cfg h POST_files_presign_upload req t)))
       "fileId" = JStr id →
     ∃ it, table_of (serve cfg h POST_files_presign_upload req t) !! id = Some it
           ∧ field it "originalFilename" = JStr (trim s))
  ∧ (∀ ev,
       ev ∈ calls_of (serve cfg h POST_files_fileId_share req t) →
       is_presign ev = true →
       ∃ id it,
         requireString (field (req_params req) "fileId") "fileId" = Ret id
         ∧ t !! id = Some it
         ∧ ev = EvPresign
                  (GetObjectCommand (field it "s3Bucket") (field it "s3Key")
                     (JStr (str "attachment; filename=" ++ [34%N]
                            ++ to_string (field it "originalFilename")
                            ++ [34%N])))
                  (PRESIGN_EXPIRES_SECONDS cfg)
         ∧ ∀ stored, field it "originalFilename" = JStr stored →
                     to_string (field it "originalFilename") = stored).
Proof.
  split.
  - intros s id Hs Hid.
    destruct (presign_upload_ok_inv _ _ _ _ _ Hid) as (s' & c & Hs' & _ & -> & ->).
    rewrite Hs in Hs'. injection Hs' as <-.
    eexists. split; [apply lookup_insert_eq|].
    unfold upload_item. obj_simpl. done.
  - intros ev Hin Hp.
    destruct (share_presign_inv _ _ _ _ _ Hin Hp) as (id & it & ? & ? & _ & ->).
    exists id, it. split_and!; [done..|].
    by intros stored ->.
Qed.

Lemma C10_witness :
  ∃ it, table_of (serve example_cfg example_host POST_files_presign_upload
                    (upload_request (JStr (str "  my report.pdf "))
                       (JStr (str "application/pdf"))) ∅)
          !! str "id-1" = Some it
        ∧ field it "originalFilename" = JStr (trim (str "  my report.pdf ")).
Proof.
  destruct (C10_trimmed_filename_stored_and_used_on_share example_cfg example_host
              (upload_request (JStr (str "  my report.pdf "))
                 (JStr (str "application/pdf"))) ∅) as [Hstored _].
  apply (Hstored (str "  my report.pdf ") (str "id-1")).
  - vm_compute; reflexivity.
  - vm_compute; reflexivity.
Defined.

(** C10, as stated, fails: the stored originalFilename is not the
    user-supplied value when that value begins or ends with white space. *)
Lemma C10_counterexample :
  let supplied := str "  my report.pdf " in
  let t' := table_of (serve example_cfg example_host POST_files_presign_upload
                        (upload_request (JStr supplied)
                           (JStr (str "application/pdf"))) ∅) in
  ∃ it, t' !! str "id-1" = Some it
        ∧ field it "originalFilename" = JStr (str "my report.pdf")
        ∧ field it "originalFilename" ≠ JStr supplied.
Proof.
  exists (upload_item example_cfg example_host (str "my report.pdf")
            (str "application/pdf")).
  split_and!.
  - vm_compute; reflexivity.
  - vm_compute; reflexivity.
  - vm_compute. discriminate.
Qed.

(** ** The life cycle of the status *)




Lemma run_app (cfg : config) (before after : list op) (t : table) :
  run cfg (before ++ after) t = run cfg after (run cfg before t).
Proof. apply fold_left_app. Qed.






(** * Further properties of the handlers *)

(** ** [trim] and [requireString] *)

Lemma trimStart_starts_nonspace (s : jsstring) : starts_nonspace (trimStart s).
Proof.
  induction s as [|c s IH]; simpl; [done|].
  destruct (is_space c) eqn:E; [done|]. simpl. done.
Qed.

Lemma trimStart_id (s : jsstring) : starts_nonspace s → trimStart s = s.
Proof. destruct s as [|c s]; simpl; [done|]. by intros ->. Qed.

Lemma trimStart_split (s : jsstring) :
  ∃ sp, s = sp ++ trimStart s ∧ Forall (λ c, is_space c = true) sp.
Proof.
  induction s as [|c s (sp & Hs & Hsp)]; simpl.
  - by exists [].
  - destruct (is_space c) eqn:E.
    + exists (c :: sp). split; [simpl; congruence|by constructor].
    + by exists [].
Qed.

Lemma trimEnd_prefix (s : jsstring) : ∃ sp, s = trimEnd s ++ sp.
Proof.
  unfold trimEnd. destruct (trimStart_split (rev s)) as (sp & Hs & _).
  exists (rev sp). rewrite <-rev_app_distr, <-Hs. by rewrite rev_involutive.
Qed.

Lemma trimEnd_starts_nonspace (s : jsstring) :
  starts_nonspace s → starts_nonspace (trimEnd s).
Proof.
  intros Hs. destruct (trimEnd_prefix s) as (sp & Heq).
  destruct (trimEnd s) as [|c r]; [done|].
  rewrite Heq in Hs. done.
Qed.

Lemma trimEnd_ends_nonspace (s : jsstring) : starts_nonspace (rev (trimEnd s)).
Proof.
  unfold trimEnd. rewrite rev_involutive. apply trimStart_starts_nonspace.
Qed.

Lemma trimEnd_id (s : jsstring) : starts_nonspace (rev s) → trimEnd s = s.
Proof.
  intros Hs. unfold trimEnd. rewrite trimStart_id by done. apply rev_involutive.
Qed.

Lemma trim_starts_nonspace (s : jsstring) : starts_nonspace (trim s).
Proof. apply trimEnd_starts_nonspace, trimStart_starts_nonspace. Qed.

Lemma trim_ends_nonspace (s : jsstring) : starts_nonspace (rev (trim s)).
Proof. apply trimEnd_ends_nonspace. Qed.

Lemma trim_id (s : jsstring) :
  starts_nonspace s → starts_nonspace (rev s) → trim s = s.
Proof.
  intros Hs He. unfold trim. rewrite trimStart_id by done. by apply trimEnd_id.
Qed.

Lemma trim_idempotent (s : jsstring) : trim (trim s) = trim s.
Proof. apply trim_id; [apply trim_starts_nonspace|apply trim_ends_nonspace]. Qed.

(** X1: what [requireString] returns is never empty, neither begins nor ends
    with white space, and is accepted unchanged when it is submitted again
    under any field name: an identifier the service has accepted once is
    read the same way by every later request. *)
Theorem requireString_result_is_stable
    (v : jsval) (name name' : string) (r : jsstring) :
  requireString v name = Ret r →
  r ≠ []
  ∧ starts_nonspace r
  ∧ starts_nonspace (rev r)
  ∧ requireString (JStr r) name' = Ret r.
Proof.
  intros (s & -> & -> & Hne)%requireString_inv. split_and!.
  - done.
  - apply trim_starts_nonspace.
  - apply trim_ends_nonspace.
  - rewrite <-(trim_idempotent s) at 2.
    apply requireString_accepts. by rewrite trim_idempotent.
Qed.

Lemma requireString_result_is_stable_witness :
  requireString (JStr (str "id-1")) "fileId" = Ret (str "id-1").
Proof.
  apply (requireString_result_is_stable (JStr (str "  id-1 ")) "fileId" "fileId").
  vm_compute; reflexivity.
Defined.

(** ** [safeName] *)

Lemma excluded_underscore : excluded 95%N = false.
Proof. done. Qed.

Lemma skip_excluded_suffix (s : jsstring) :
  ∃ run, s = run ++ skip_excluded s.
Proof.
  induction s as [|c s (run & Hs)]; simpl.
  - by exists [].
  - destruct (excluded c).
    + exists (c :: run). simpl. congruence.
    + by exists [].
Qed.

Lemma replace_excluded_spec (n : nat) (s : jsstring) :
  (length s <= n)%nat →
  Forall (λ c, excluded c = false) (replace_excluded s)
  ∧ (length (replace_excluded s) <= length s)%nat
  ∧ (s ≠ [] → replace_excluded s ≠ []).
Proof.
  revert s. induction n as [|n IH]; intros s Hlen.
  { destruct s; [|simpl in Hlen; lia]. simp replace_excluded. done. }
  destruct s as [|c s]; simp replace_excluded; [done|].
  simpl in Hlen. destruct (excluded c) eqn:Hc.
  - destruct (skip_excluded_suffix s) as (run & Hrun).
    assert (length (skip_excluded s) <= length s)%nat as Hskip.
    { rewrite Hrun at 2. rewrite length_app. lia. }
    destruct (IH (skip_excluded s)) as (Hall & Hle & _); [lia|].
    split_and!; [by constructor|simpl; lia|done].
  - destruct (IH s) as (Hall & Hle & _); [lia|].
    split_and!; [by constructor|simpl; lia|done].
Qed.

(** X2: the sanitized name holds only characters of [A-Za-z0-9_.-] (so no
    slash, space or control character reaches the storage key through it),
    is never longer than the name it comes from, is empty only for the empty
    name, and sanitizing it again changes nothing. *)
Theorem safeName_only_kept_characters (s : jsstring) :
  Forall (λ c, in_kept_class c = true) (safeName s)
  ∧ (length (safeName s) <= length s)%nat
  ∧ (safeName s = [] ↔ s = [])
  ∧ safeName (safeName s) = safeName s.
Proof.
  unfold safeName.
  destruct (replace_excluded_spec (length s) s) as (Hall & Hle & Hne); [done|].
  split_and!.
  - eapply Forall_impl; [exact Hall|].
    intros c Hc. unfold excluded in Hc. by apply negb_false_iff.
  - done.
  - split; [|intros ->; by simp replace_excluded].
    intros Hnil. destruct s as [|c s]; [done|]. by destruct Hne.
  - by apply replace_excluded_kept.
Qed.

(** ** The storage key, from signing to the record *)

(** X3: when presign-upload answers with a storage key, that same key is the
    one the upload URL was signed for and the one written to the record,
    with the configured bucket in both places; the key is
    [uploads/<fileId>/] followed by a name made only of [A-Za-z0-9_.-], so
    the fileId part and the name part of a key cannot run into each other
    through a slash in the name. The URL is signed for the trimmed content
    type and the configured expiry. *)
Theorem presign_upload_key_is_consistent
    (cfg : config) (h : host) (req : request) (t : table) (key : jsstring) :
  field (body (response_of (serve cfg h POST_files_presign_upload req t))) "s3Key"
    = JStr key →
  ∃ name ct it,
    requireString (field (req_body req) "contentType") "contentType" = Ret ct
    ∧ key = str "uploads/" ++ uuidv4 h ++ str "/" ++ name
    ∧ Forall (λ c, in_kept_class c = true) name
    ∧ name ≠ []
    ∧ calls_of (serve cfg h POST_files_presign_upload req t)
      = [EvPresign (PutObjectCommand (JStr (S3_BUCKET cfg)) (JStr key) (JStr ct))
           (PRESIGN_EXPIRES_SECONDS cfg);
         EvDdb (PutCommand (DDB_TABLE cfg) it)]
    ∧ table_of (serve cfg h POST_files_presign_upload req t) !! uuidv4 h = Some it
    ∧ field it "s3Key" = JStr key
    ∧ field it "s3Bucket" = JStr (S3_BUCKET cfg).
Proof.
  rewrite presign_upload_run.
  destruct (requireString_cases (field (req_body req) "originalFilename")
              "originalFilename") as [[_ ->]|(s & Hs & Hne & ->)].
  { out_simpl. by rewrite error_handler_field. }
  destruct (requireString _ "contentType") as [ct|e].
  2: { out_simpl. by rewrite error_handler_field. }
  simpl. destruct (presigner _ _ _) as [url|e].
  2: { out_simpl. by rewrite error_handler_field. }
  destruct (ddb_fault _ _) as [e|].
  { out_simpl. by rewrite error_handler_field. }
  out_simpl. unfold json. cbn [body]. obj_simpl. intros [= <-].
  destruct (safeName_only_kept_characters (trim s)) as (Hkept & _ & Hnil & _).
  exists (safeName (trim s)), ct, (upload_item cfg h (trim s) ct).
  split_and!; try done;
    try (unfold upload_item; by obj_simpl);
    try apply lookup_insert_eq.
  by rewrite Hnil.
Qed.

Lemma presign_upload_key_is_consistent_witness :
  ∃ name, str "uploads/id-1/my_report.pdf"
          = str "uploads/" ++ uuidv4 example_host ++ str "/" ++ name
          ∧ name ≠ [].
Proof.
  destruct (presign_upload_key_is_consistent example_cfg example_host
              (upload_request (JStr (str "my report.pdf"))
                 (JStr (str "application/pdf"))) ∅
              (str "uploads/id-1/my_report.pdf"))
    as (name & ct & it & _ & Hkey & _ & Hne & _).
  - vm_compute; reflexivity.
  - exists name. split; [exact Hkey | exact Hne].
Defined.

(** ** Presign-upload writes without looking *)

Lemma presign_upload_served cfg h req t fn ctype url :
  field (req_body req) "originalFilename" = JStr fn → trim fn ≠ [] →
  field (req_body req) "contentType" = JStr ctype → trim ctype ≠ [] →
  presigner h (PutObjectCommand (JStr (S3_BUCKET cfg))
                 (JStr (upload_key h (trim fn))) (JStr (trim ctype)))
    (PRESIGN_EXPIRES_SECONDS cfg) = Ret url →
  ddb_fault h (PutCommand (DDB_TABLE cfg)
                 (upload_item cfg h (trim fn) (trim ctype))) = None →
  serve cfg h POST_files_presign_upload req t
  = (json (obj [("fileId", JStr (uuidv4 h)); ("uploadUrl", JStr url);
                ("s3Key", JStr (upload_key h (trim fn)));
                ("expiresAt", JNum (Date_now h / 1000
                                    + PRESIGN_EXPIRES_SECONDS cfg))]),
     <[uuidv4 h := upload_item cfg h (trim fn) (trim ctype)]> t,
     [EvPresign (PutObjectCommand (JStr (S3_BUCKET cfg))
                   (JStr (upload_key h (trim fn))) (JStr (trim ctype)))
        (PRESIGN_EXPIRES_SECONDS cfg);
      EvDdb (PutCommand (DDB_TABLE cfg)
               (upload_item cfg h (trim fn) (trim ctype)))]).
Proof.
  intros Hfn Hfn' Hct Hct' Hsign Hput.
  rewrite presign_upload_run, Hfn, Hct.
  rewrite !requireString_accepts by done. simpl. by rewrite Hsign, Hput.
Qed.

(** X4: presign-upload never reads the table, and its put carries no
    condition: when the fileId it draws already names a record, a call that
    succeeds replaces that record, whatever its status was, by the new
    UPLOADING record, and the number of records stays the same. *)
Theorem presign_upload_replaces_an_existing_record
    (cfg : config) (h : host) (req : request) (t : table)
    (fn ctype url : jsstring) (old : jsobj) :
  field (req_body req) "originalFilename" = JStr fn → trim fn ≠ [] →
  field (req_body req) "contentType" = JStr ctype → trim ctype ≠ [] →
  presigner h (PutObjectCommand (JStr (S3_BUCKET cfg))
                 (JStr (upload_key h (trim fn))) (JStr (trim ctype)))
    (PRESIGN_EXPIRES_SECONDS cfg) = Ret url →
  ddb_fault h (PutCommand (DDB_TABLE cfg)
                 (upload_item cfg h (trim fn) (trim ctype))) = None →
  t !! uuidv4 h = Some old →
  let out := serve cfg h POST_files_presign_upload req t in
  status (response_of out) = 200
  ∧ (∃ it, table_of out !! uuidv4 h = Some it
           ∧ field it "status" = JStr (str "UPLOADING")
           ∧ field it "downloadCount" = JNum 0
           ∧ field it "originalFilename" = JStr (trim fn)
           ∧ it !! "sizeBytes" = None)
  ∧ size (table_of out) = size t
  ∧ Forall (λ ev, ∀ tn k, ev ≠ EvDdb (GetCommand tn k)) (calls_of out).
Proof.
  intros Hfn Hfn' Hct Hct' Hsign Hput Hold out. subst out.
  rewrite (presign_upload_served _ _ _ _ _ _ _ Hfn Hfn' Hct Hct' Hsign Hput).
  out_simpl. split_and!.
  - done.
  - eexists. split; [apply lookup_insert_eq|].
    unfold upload_item, UPLOADING. obj_simpl. done.
  - by apply map_size_insert_Some.
  - by repeat constructor.
Qed.

Lemma presign_upload_replaces_an_existing_record_witness :
  size (table_of (serve example_cfg example_host POST_files_presign_upload
                    (upload_request (JStr (str "other.txt")) (JStr (str "text/plain")))
                    completed_table))
  = size completed_table.
Proof.
  destruct (presign_upload_replaces_an_existing_record example_cfg example_host
              (upload_request (JStr (str "other.txt")) (JStr (str "text/plain")))
              completed_table (str "other.txt") (str "text/plain")
              (str "https://signed.example")
              (completed_item
                 (upload_item example_cfg example_host (str "report.pdf")
                    (str "application/pdf"))
                 (JNum 42) (JStr (str "application/pdf"))))
    as (_ & _ & Hsize & _).
  - vm_compute; reflexivity.
  - vm_compute; discriminate.
  - vm_compute; reflexivity.
  - vm_compute; discriminate.
  - reflexivity.
  - reflexivity.
  - vm_compute; reflexivity.
  - exact Hsize.
Defined.

(** ** Get-metadata *)



Lemma requireString_stable_id (id : jsstring) (name : string) :
  id ≠ [] → starts_nonspace id → starts_nonspace (rev id) →
  requireString (JStr id) name = Ret id.
Proof.
  intros Hne Hs He. rewrite <-(trim_id id) at 2 by done.
  apply requireString_accepts. by rewrite trim_id.
Qed.

(** X6: put then get. When presign-upload has answered with a fileId (not
    empty and without surrounding white space, as a uuid is), a get-metadata for that
    fileId on the resulting table, its read served, answers 200 with the
    very item that was written: the drawn fileId, the configured bucket, the
    storage key, the trimmed originalFilename and contentType, status
    UPLOADING, createdAt, expiresAt and downloadCount 0, and no sizeBytes. *)
Theorem get_metadata_returns_what_presign_upload_stored
    (cfg : config) (h1 h2 : host) (req1 req2 : request) (t : table)
    (id : jsstring) :
  field (body (response_of (serve cfg h1 POST_files_presign_upload req1 t)))
    "fileId" = JStr id →
  id ≠ [] → starts_nonspace id → starts_nonspace (rev id) →
  field (req_params req2) "fileId" = JStr id →
  ddb_fault h2 (GetCommand (DDB_TABLE cfg) id) = None →
  ∃ s c,
    field (req_body req1) "originalFilename" = JStr s
    ∧ field (req_body req1) "contentType" = JStr c
    ∧ response_of (serve cfg h2 GET_files_fileId req2
                     (table_of (serve cfg h1 POST_files_presign_upload req1 t)))
      = mkResponse 200
          (obj [("fileId", JStr id);
                ("s3Bucket", JStr (S3_BUCKET cfg));
                ("s3Key", JStr (str "uploads/" ++ id ++ str "/"
                                ++ safeName (trim s)));
                ("originalFilename", JStr (trim s));
                ("contentType", JStr (trim c));
                ("status", JStr (str "UPLOADING"));
                ("createdAt", JStr (toISOString h1 (new_Date h1)));
                ("expiresAt", JNum (Date_now h1 / 1000
                                    + PRESIGN_EXPIRES_SECONDS cfg));
                ("downloadCount", JNum 0)]).
Proof.
  intros Hid Hne Hs He Hparam Hget.
  destruct (presign_upload_ok_inv _ _ _ _ _ Hid) as (s & c & Hfn & Hct & -> & ->).
  exists s, c. split_and!; [done..|].
  rewrite get_metadata_run, Hparam, requireString_stable_id by done.
  simpl. rewrite Hget, lookup_insert_eq. done.
Qed.

Lemma get_metadata_returns_what_presign_upload_stored_witness :
  ∃ s c,
    field (req_body (upload_request (JStr (str " my report.pdf"))
                       (JStr (str "application/pdf")))) "originalFilename" = JStr s
    ∧ field (req_body (upload_request (JStr (str " my report.pdf"))
                         (JStr (str "application/pdf")))) "contentType" = JStr c
    ∧ field (body (response_of
        (serve example_cfg example_host GET_files_fileId
           (param_fileId (JStr (str "id-1")))
           (table_of (serve example_cfg example_host POST_files_presign_upload
                        (upload_request (JStr (str " my report.pdf"))
                           (JStr (str "application/pdf"))) ∅)))))
        "originalFilename" = JStr (trim s).
Proof.
  destruct (get_metadata_returns_what_presign_upload_stored example_cfg
              example_host example_host
              (upload_request (JStr (str " my report.pdf"))
                 (JStr (str "application/pdf")))
              (param_fileId (JStr (str "id-1"))) ∅ (str "id-1"))
    as (s & c & Hs & Hc & Hres).
  - vm_compute; reflexivity.
  - vm_compute; discriminate.
  - vm_compute; reflexivity.
  - vm_compute; reflexivity.
  - vm_compute; reflexivity.
  - reflexivity.
  - exists s, c. split_and!; [exact Hs | exact Hc |].
    rewrite Hres. cbn [body]. obj_simpl. reflexivity.
Defined.

(** ** Complete-upload and the object it checks *)

(** X7: complete-upload calls the object store only for a record that exists
    and is UPLOADING, and the head it sends addresses the bucket and key
    stored in that record (not values of the request); it never asks the
    presigner for a URL. *)
Theorem complete_upload_heads_the_recorded_object
    (cfg : config) (h : host) (req : request) (t : table) (ev : event) :
  ev ∈ calls_of (serve cfg h POST_files_complete req t) →
  is_presign ev = false
  ∧ ∀ cmd, ev = EvS3 cmd →
      ∃ id it,
        requireString (field (req_body req) "fileId") "fileId" = Ret id
        ∧ t !! id = Some it
        ∧ field it "status" = JStr (str "UPLOADING")
        ∧ cmd = HeadObjectCommand (field it "s3Bucket") (field it "s3Key").
Proof.
  rewrite complete_run.
  destruct (requireString _ _) as [id|e]; simpl; [|by each_call].
  destruct (ddb_fault h (GetCommand _ _)) as [e|]; [by each_call|].
  destruct (t !! id) as [it|] eqn:Hit; [|by each_call].
  destruct (strict_neq _ _) eqn:Hst; [by each_call|].
  apply strict_neq_false in Hst.
  assert (∀ cmd,
    EvS3 (HeadObjectCommand (field it "s3Bucket") (field it "s3Key")) = EvS3 cmd →
    ∃ id0 it0, Ret id = Ret id0 ∧ t !! id0 = Some it0
      ∧ field it0 "status" = JStr (str "UPLOADING")
      ∧ cmd = HeadObjectCommand (field it0 "s3Bucket") (field it0 "s3Key"))
    as Hhead by (intros cmd [= <-]; by exists id, it).
  destruct (s3_head _ _) as [head|e];
    [|each_call; (split; [done|]); first [exact Hhead | by intros ? [=]]].
  destruct (ddb_fault _ _) as [e|];
    [each_call; (split; [done|]); first [exact Hhead | by intros ? [=]]|].
  case_bool_decide;
    each_call; (split; [done|]); first [exact Hhead | by intros ? [=]].
Qed.

Lemma complete_upload_heads_the_recorded_object_witness :
  ∃ id it,
    requireString (field (req_body (body_fileId (JStr (str "id-1")))) "fileId")
      "fileId" = Ret id
    ∧ uploaded_table !! id = Some it
    ∧ field it "status" = JStr (str "UPLOADING")
    ∧ HeadObjectCommand (JStr (str "bucket")) (JStr (str "uploads/id-1/report.pdf"))
      = HeadObjectCommand (field it "s3Bucket") (field it "s3Key").
Proof.
  destruct (complete_upload_heads_the_recorded_object example_cfg example_host
              (body_fileId (JStr (str "id-1"))) uploaded_table
              (EvS3 (HeadObjectCommand (JStr (str "bucket"))
                       (JStr (str "uploads/id-1/report.pdf")))))
    as [_ Hhead].
  - apply list_elem_of_In. vm_compute. right. left. reflexivity.
  - apply Hhead. reflexivity.
Defined.

Lemma complete_served cfg h req t id it head :
  requireString (field (req_body req) "fileId") "fileId" = Ret id →
  (∀ cmd, ddb_fault h cmd = None) →
  t !! id = Some it →
  field it "status" = UPLOADING →
  s3_head h (HeadObjectCommand (field it "s3Bucket") (field it "s3Key")) = Ret head →
  nullish (ContentType head) (field it "contentType") ≠ JUndefined →
  serve cfg h POST_files_complete req t
  = (json (obj [("ok", JBool true); ("fileId", JStr id);
                ("sizeBytes", nullish (ContentLength head) JNull);
                ("contentType",
                 nullish (ContentType head) (field it "contentType"))]),
     <[id := completed_item it (nullish (ContentLength head) JNull)
               (nullish (ContentType head) (field it "contentType"))]> t,
     [EvDdb (GetCommand (DDB_TABLE cfg) id);
      EvS3 (HeadObjectCommand (field it "s3Bucket") (field it "s3Key"));
      EvDdb (UpdateCommand (DDB_TABLE cfg) id
               [("status", SetValue READY);
                ("sizeBytes", SetValue (nullish (ContentLength head) JNull));
                ("contentType",
                 SetValue (nullish (ContentType head)
                             (field it "contentType")))])]).
Proof.
  intros Hid Hddb Hit Hst Hhead Hct.
  rewrite complete_run, Hid. simpl. rewrite !Hddb, Hit, Hst.
  replace (strict_neq UPLOADING UPLOADING) with false by (by vm_compute).
  rewrite Hhead. cbv zeta. by rewrite Hddb, bool_decide_eq_false_2 by done.
Qed.

Lemma share_served cfg h req t id it url :
  requireString (field (req_params req) "fileId") "fileId" = Ret id →
  (∀ cmd, ddb_fault h cmd = None) →
  t !! id = Some it →
  field it "status" = READY →
  presigner h (GetObjectCommand (field it "s3Bucket") (field it "s3Key")
                 (disposition (field it "originalFilename")))
    (PRESIGN_EXPIRES_SECONDS cfg) = Ret url →
  (it !! "downloadCount" = None ∨ ∃ n, it !! "downloadCount" = Some (JNum n)) →
  serve cfg h POST_files_fileId_share req t
  = (json (obj [("fileId", JStr id); ("downloadUrl", JStr url);
                ("expiresAt", JNum (Date_now h / 1000
                                    + PRESIGN_EXPIRES_SECONDS cfg))]),
     <[id := shared_item it (count_of it)]> t,
     [EvDdb (GetCommand (DDB_TABLE cfg) id);
      EvPresign (GetObjectCommand (field it "s3Bucket") (field it "s3Key")
                   (disposition (field it "originalFilename")))
        (PRESIGN_EXPIRES_SECONDS cfg);
      EvDdb (UpdateCommand (DDB_TABLE cfg) id
               [("downloadCount", SetIfNotExistsPlus "downloadCount" 0 1)])]).
Proof.
  intros Hid Hddb Hit Hst Hsign Hcount.
  rewrite share_run, Hid. simpl. rewrite !Hddb, Hit, Hst.
  replace (strict_neq READY READY) with false by (by vm_compute).
  rewrite Hsign. cbv zeta. unfold count_of.
  by destruct Hcount as [->|[n ->]].
Qed.

(** ** From upload to download *)

(** X8: the three steps compose. After a presign-upload that is served, a
    complete-upload for the fileId it drew (not empty and without
    surrounding white space, as a uuid is) heads exactly the bucket and key
    the upload URL was signed for; when that head is answered, a share on
    the same fileId then signs a download of that same bucket and key, with
    the trimmed original name as the attachment filename, answers 200 with
    the URL, and leaves the record READY with downloadCount 1, the reported
    size and type, and the name and key it was created with. *)
Theorem upload_complete_share_compose
    (cfg : config) (h1 h2 h3 : host) (req1 req2 req3 : request) (t : table)
    (fn ctype : jsstring) (head : head_output) :
  field (req_body req1) "originalFilename" = JStr fn → trim fn ≠ [] →
  field (req_body req1) "contentType" = JStr ctype → trim ctype ≠ [] →
  serves h1 →
  uuidv4 h1 ≠ [] →
  starts_nonspace (uuidv4 h1) → starts_nonspace (rev (uuidv4 h1)) →
  field (req_body req2) "fileId" = JStr (uuidv4 h1) →
  (∀ cmd, ddb_fault h2 cmd = None) →
  s3_head h2 (HeadObjectCommand (JStr (S3_BUCKET cfg))
                (JStr (str "uploads/" ++ uuidv4 h1 ++ str "/"
                       ++ safeName (trim fn)))) = Ret head →
  field (req_params req3) "fileId" = JStr (uuidv4 h1) →
  serves h3 →
  let t1 := table_of (serve cfg h1 POST_files_presign_upload req1 t) in
  let t2 := table_of (serve cfg h2 POST_files_complete req2 t1) in
  let out3 := serve cfg h3 POST_files_fileId_share req3 t2 in
  ∃ url it,
    presigner h3
      (GetObjectCommand (JStr (S3_BUCKET cfg))
         (JStr (str "uploads/" ++ uuidv4 h1 ++ str "/" ++ safeName (trim fn)))
         (JStr (str "attachment; filename=" ++ [34%N] ++ trim fn ++ [34%N])))
      (PRESIGN_EXPIRES_SECONDS cfg) = Ret url
    ∧ response_of out3
      = mkResponse 200
          (obj [("fileId", JStr (uuidv4 h1)); ("downloadUrl", JStr url);
                ("expiresAt", JNum (Date_now h3 / 1000
                                    + PRESIGN_EXPIRES_SECONDS cfg))])
    ∧ table_of out3 !! uuidv4 h1 = Some it
    ∧ field it "status" = JStr (str "READY")
    ∧ field it "downloadCount" = JNum 1
    ∧ field it "sizeBytes" = nullish (ContentLength head) JNull
    ∧ field it "contentType" = nullish (ContentType head) (JStr (trim ctype))
    ∧ field it "originalFilename" = JStr (trim fn)
    ∧ field it "s3Key" = JStr (str "uploads/" ++ uuidv4 h1 ++ str "/"
                               ++ safeName (trim fn)).
Proof.
  intros Hfn Hfn' Hct Hct' [Hsign1 Hddb1] Hne Hs He Hid2 Hddb2 Hhead Hid3
    [Hsign3 Hddb3] t1 t2 out3.
  destruct (Hsign1 (PutObjectCommand (JStr (S3_BUCKET cfg))
                      (JStr (upload_key h1 (trim fn))) (JStr (trim ctype)))
              (PRESIGN_EXPIRES_SECONDS cfg)) as [url1 Hurl1].
  set (it1 := upload_item cfg h1 (trim fn) (trim ctype)).
  assert (t1 = <[uuidv4 h1 := it1]> t) as Ht1.
  { subst t1. by rewrite (presign_upload_served _ _ _ _ _ _ _ Hfn Hfn' Hct Hct'
                            Hurl1 (Hddb1 _)). }
  assert (field it1 "status" = UPLOADING ∧ field it1 "s3Bucket" = JStr (S3_BUCKET cfg)
          ∧ field it1 "s3Key" = JStr (upload_key h1 (trim fn))
          ∧ field it1 "contentType" = JStr (trim ctype)
          ∧ field it1 "originalFilename" = JStr (trim fn)
          ∧ it1 !! "downloadCount" = Some (JNum 0)) as (F1 & F2 & F3 & F4 & F5 & F6).
  { subst it1. unfold upload_item. obj_simpl. done. }
  set (sz := nullish (ContentLength head) JNull).
  set (ct := nullish (ContentType head) (JStr (trim ctype))).
  set (it2 := completed_item it1 sz ct).
  assert (ct ≠ JUndefined) as Hctdef by (subst ct; by destruct (ContentType head)).
  assert (t2 = <[uuidv4 h1 := it2]> t1) as Ht2.
  { subst t2. rewrite (complete_served cfg h2 req2 t1 (uuidv4 h1) it1 head).
    - out_simpl. subst it2 sz ct. by rewrite F4.
    - rewrite Hid2. by apply requireString_stable_id.
    - done.
    - by rewrite Ht1, lookup_insert_eq.
    - done.
    - by rewrite F2, F3.
    - by rewrite F4. }
  assert (field it2 "status" = READY ∧ field it2 "s3Bucket" = JStr (S3_BUCKET cfg)
          ∧ field it2 "s3Key" = JStr (upload_key h1 (trim fn))
          ∧ field it2 "originalFilename" = JStr (trim fn)
          ∧ it2 !! "downloadCount" = Some (JNum 0)
          ∧ field it2 "sizeBytes" = sz ∧ field it2 "contentType" = ct)
    as (G1 & G2 & G3 & G4 & G5 & G6 & G7).
  { subst it2. unfold completed_item. rewrite !field_insert.
    rewrite !lookup_insert_ne by done. simpl. done. }
  destruct (Hsign3 (GetObjectCommand (field it2 "s3Bucket") (field it2 "s3Key")
                      (disposition (field it2 "originalFilename")))
              (PRESIGN_EXPIRES_SECONDS cfg)) as [url Hurl].
  assert (out3 = (json (obj [("fileId", JStr (uuidv4 h1)); ("downloadUrl", JStr url);
                             ("expiresAt", JNum (Date_now h3 / 1000
                                                 + PRESIGN_EXPIRES_SECONDS cfg))]),
                  <[uuidv4 h1 := shared_item it2 (count_of it2)]> t2,
                  [EvDdb (GetCommand (DDB_TABLE cfg) (uuidv4 h1));
                   EvPresign (GetObjectCommand (field it2 "s3Bucket")
                                (field it2 "s3Key")
                                (disposition (field it2 "originalFilename")))
                     (PRESIGN_EXPIRES_SECONDS cfg);
                   EvDdb (UpdateCommand (DDB_TABLE cfg) (uuidv4 h1)
                            [("downloadCount",
                              SetIfNotExistsPlus "downloadCount" 0 1)])]))
    as ->.
  { subst out3. apply share_served; try done.
    - rewrite Hid3. by apply requireString_stable_id.
    - by rewrite Ht2, lookup_insert_eq.
    - right. by exists 0. }
  exists url, (shared_item it2 (count_of it2)). out_simpl.
  rewrite G2, G3, G4 in Hurl. unfold disposition in Hurl.
  rewrite to_string_str in Hurl.
  unfold count_of. rewrite G5. unfold shared_item. rewrite !field_insert. simpl.
  split_and!; try done.
  apply lookup_insert_eq.
Qed.

Lemma upload_complete_share_compose_witness :
  ∃ it, table_of (serve example_cfg example_host POST_files_fileId_share
                    (param_fileId (JStr (str "id-1"))) completed_table)
          !! str "id-1" = Some it
        ∧ field it "downloadCount" = JNum 1.
Proof.
  destruct (upload_complete_share_compose example_cfg example_host example_host
              example_host
              (upload_request (JStr (str "report.pdf")) (JStr (str "application/pdf")))
              (body_fileId (JStr (str "id-1"))) (param_fileId (JStr (str "id-1")))
              ∅ (str "report.pdf") (str "application/pdf")
              (mkHead (JNum 42) (JStr (str "application/pdf"))))
    as (url & it & _ & _ & Hit & _ & Hcount & _).
  - vm_compute; reflexivity.
  - vm_compute; discriminate.
  - vm_compute; reflexivity.
  - vm_compute; discriminate.
  - split; [intros cmd n; by eexists | done].
  - vm_compute; discriminate.
  - vm_compute; reflexivity.
  - vm_compute; reflexivity.
  - vm_compute; reflexivity.
  - done.
  - reflexivity.
  - vm_compute; reflexivity.
  - split; [intros cmd n; by eexists | done].
  - exists it. split; [|exact Hcount].
    rewrite <-Hit. vm_compute; reflexivity.
Defined.

(** ** Counting shares *)

Lemma run_cons (cfg : config) (o : op) (ops : list op) (t : table) :
  run cfg (o :: ops) t = run cfg ops (step cfg t o).
Proof. done. Qed.

Lemma shares_count_from (cfg : config) (req : request) (id : jsstring)
    (hs : list host) :
  requireString (field (req_params req) "fileId") "fileId" = Ret id →
  ∀ (h : host) (t : table) (it : jsobj),
    Forall serves (h :: hs) →
    t !! id = Some it →
    field it "status" = READY →
    (it !! "downloadCount" = None ∨ ∃ n, it !! "downloadCount" = Some (JNum n)) →
    run cfg (share_ops (h :: hs) req) t
    = <[id := <["downloadCount" :=
                  JNum (count_of it + Z.of_nat (length (h :: hs)))]> it]> t.
Proof.
  intros Hid. induction hs as [|h' hs IH]; intros h t it Hserves Hit Hst Hcount.
  - apply Forall_cons_1 in Hserves as [[Hsign Hddb] _].
    destruct (Hsign (GetObjectCommand (field it "s3Bucket") (field it "s3Key")
                       (disposition (field it "originalFilename")))
                (PRESIGN_EXPIRES_SECONDS cfg)) as [url Hurl].
    simpl. unfold step.
    rewrite (share_served cfg h req t id it url) by done. out_simpl.
    unfold shared_item. do 3 f_equal.
  - apply Forall_cons_1 in Hserves as [[Hsign Hddb] Hserves].
    destruct (Hsign (GetObjectCommand (field it "s3Bucket") (field it "s3Key")
                       (disposition (field it "originalFilename")))
                (PRESIGN_EXPIRES_SECONDS cfg)) as [url Hurl].
    change (share_ops (h :: h' :: hs) req)
      with ((h, POST_files_fileId_share, req) :: share_ops (h' :: hs) req).
    rewrite run_cons. unfold step.
    rewrite (share_served cfg h req t id it url) by done. out_simpl.
    rewrite (IH h' _ (shared_item it (count_of it))); try done.
    + rewrite insert_insert_eq. f_equal. unfold shared_item.
      rewrite insert_insert_eq. do 2 f_equal.
      unfold count_of at 1. rewrite lookup_insert_eq.
      cbn [length]. lia.
    + apply lookup_insert_eq.
    + unfold shared_item. by rewrite field_insert.
    + right. eexists. unfold shared_item. apply lookup_insert_eq.
Qed.

(** X9: shares add up. A share request served [n >= 1] times in a row on a
    READY record, by hosts whose stores serve every call, leaves
    downloadCount at its starting value (0 when absent) plus [n], and
    changes nothing else in the table. *)
Theorem shares_increment_by_the_number_of_calls
    (cfg : config) (req : request) (id : jsstring) (hs : list host)
    (t : table) (it : jsobj) :
  requireString (field (req_params req) "fileId") "fileId" = Ret id →
  hs ≠ [] →
  Forall serves hs →
  t !! id = Some it →
  field it "status" = JStr (str "READY") →
  (it !! "downloadCount" = None ∨ ∃ n, it !! "downloadCount" = Some (JNum n)) →
  run cfg (share_ops hs req) t
  = <[id := <["downloadCount" := JNum (count_of it + Z.of_nat (length hs))]> it]> t.
Proof.
  intros Hid Hne. destruct hs as [|h hs]; [done|].
  by apply shares_count_from.
Qed.

Lemma shares_increment_by_the_number_of_calls_witness :
  run example_cfg
    (share_ops [example_host; example_host; example_host]
       (param_fileId (JStr (str "id-1")))) completed_table
  = <[str "id-1" :=
        <["downloadCount" := JNum 3]>
          (completed_item
             (upload_item example_cfg example_host (str "report.pdf")
                (str "application/pdf"))
             (JNum 42) (JStr (str "application/pdf")))]> completed_table.
Proof.
  apply (shares_increment_by_the_number_of_calls example_cfg
           (param_fileId (JStr (str "id-1"))) (str "id-1")
           [example_host; example_host; example_host] completed_table
           (completed_item
              (upload_item example_cfg example_host (str "report.pdf")
                 (str "application/pdf"))
              (JNum 42) (JStr (str "application/pdf")))).
  - vm_compute; reflexivity.
  - discriminate.
  - repeat constructor; intros; by eexists.
  - vm_compute; reflexivity.
  - vm_compute; reflexivity.
  - right. exists 0. vm_compute; reflexivity.
Defined.

(** X10: the expiresAt a share answers with is computed from the clock and
    the configured window at the time of the call; it is not read from the
    record, whose own expiresAt (like its fileId, key and status) the call
    leaves as it was. The URL is signed for the configured window and for
    the bucket and key stored in the record. *)
Theorem share_expiry_is_recomputed
    (cfg : config) (h : host) (req : request) (t : table)
    (id : jsstring) (it : jsobj) (url : jsstring) :
  requireString (field (req_params req) "fileId") "fileId" = Ret id →
  t !! id = Some it →
  let out := serve cfg h POST_files_fileId_share req t in
  field (body (response_of out)) "downloadUrl" = JStr url →
  field (body (response_of out)) "expiresAt"
    = JNum (Date_now h / 1000 + PRESIGN_EXPIRES_SECONDS cfg)
  ∧ field (body (response_of out)) "fileId" = JStr id
  ∧ presigner h (GetObjectCommand (field it "s3Bucket") (field it "s3Key")
                   (JStr (str "attachment; filename=" ++ [34%N]
                          ++ to_string (field it "originalFilename") ++ [34%N])))
      (PRESIGN_EXPIRES_SECONDS cfg) = Ret url
  ∧ ∃ it', table_of out !! id = Some it'
           ∧ it' !! "expiresAt" = it !! "expiresAt"
           ∧ it' !! "status" = it !! "status"
           ∧ it' !! "s3Key" = it !! "s3Key".
Proof.
  intros Hid Hit out Hurl.
  destruct (share_ok_inv _ _ _ _ _ _ _ Hid Hit Hurl)
    as (n & _ & _ & Hsign & Hres & Htbl).
  subst out. rewrite Hres, Htbl. unfold json. cbn [body]. obj_simpl.
  split_and!; [done..|].
  exists (shared_item it n). rewrite lookup_insert_eq. unfold shared_item.
  by rewrite !lookup_insert_ne.
Qed.

Lemma share_expiry_is_recomputed_witness :
  field (body (response_of (serve example_cfg example_host POST_files_fileId_share
                              (param_fileId (JStr (str "id-1"))) completed_table)))
    "expiresAt" = JNum (Date_now example_host / 1000 + 900).
Proof.
  destruct (share_expiry_is_recomputed example_cfg example_host
              (param_fileId (JStr (str "id-1"))) completed_table (str "id-1")
              (completed_item
                 (upload_item example_cfg example_host (str "report.pdf")
                    (str "application/pdf"))
                 (JNum 42) (JStr (str "application/pdf")))
              (str "https://signed.example"))
    as (Hexp & _).
  - vm_compute; reflexivity.
  - vm_compute; reflexivity.
  - vm_compute; reflexivity.
  - exact Hexp.
Defined.

(** ** Failures of the metadata store *)

Ltac failed_ddb Hfail :=
  cbn [metadata_call_fails] in Hfail; try done;
  try (split_and!; [congruence | done]);
  try congruence.

(** X11: on every route, when the metadata store fails a call the handler
    makes to it (the read, the put or the update), the response is the
    error middleware's rendering of that failure and the table is the one
    the request started from. *)
Theorem metadata_store_failure_changes_nothing
    (cfg : config) (h : host) (r : route) (req : request) (t : table)
    (ev : event) (e : jserror) :
  ev ∈ calls_of (serve cfg h r req t) →
  metadata_call_fails h ev e →
  response_of (serve cfg h r req t) = error_handler e
  ∧ table_of (serve cfg h r req t) = t.
Proof.
  intros Hin Hfail. revert Hin. destruct r.
  - rewrite presign_upload_run.
    destruct (requireString _ "originalFilename") as [name|?]; [|by each_call].
    destruct (requireString _ "contentType") as [ct|?]; [|by each_call].
    simpl. destruct (presigner _ _ _) as [url|e']; [|each_call; failed_ddb Hfail].
    destruct (ddb_fault h (PutCommand _ _)) as [e'|] eqn:Hput; each_call; failed_ddb Hfail.
  - rewrite complete_run.
    destruct (requireString _ _) as [id|?]; [|by each_call].
    simpl. destruct (ddb_fault h (GetCommand _ _)) as [e'|] eqn:Hget.
    { each_call; failed_ddb Hfail. }
    destruct (t !! id) as [it|]; [|each_call; failed_ddb Hfail].
    destruct (strict_neq _ _); [each_call; failed_ddb Hfail|].
    destruct (s3_head _ _) as [head|e']; [|each_call; failed_ddb Hfail].
    destruct (ddb_fault h (UpdateCommand _ _ _)) as [e'|] eqn:Hupd; [each_call; failed_ddb Hfail|].
    case_bool_decide; each_call; failed_ddb Hfail.
  - rewrite get_metadata_run.
    destruct (requireString _ _) as [id|?]; [|by each_call].
    simpl. destruct (ddb_fault h (GetCommand _ _)) as [e'|] eqn:Hget.
    { each_call; failed_ddb Hfail. }
    destruct (t !! id) as [it|]; each_call; failed_ddb Hfail.
  - rewrite share_run.
    destruct (requireString _ _) as [id|?]; [|by each_call].
    simpl. destruct (ddb_fault h (GetCommand _ _)) as [e'|] eqn:Hget.
    { each_call; failed_ddb Hfail. }
    destruct (t !! id) as [it|]; [|each_call; failed_ddb Hfail].
    destruct (strict_neq _ _); [each_call; failed_ddb Hfail|].
    destruct (presigner _ _ _) as [url|e']; [|each_call; failed_ddb Hfail].
    destruct (ddb_fault h (UpdateCommand _ _ _)) as [e'|] eqn:Hupd; [each_call; failed_ddb Hfail|].
    destruct (it !! "downloadCount") as [[]|]; each_call; failed_ddb Hfail.
Qed.

Lemma metadata_store_failure_changes_nothing_witness :
  response_of (serve example_cfg host_without_table POST_files_presign_upload
                 (upload_request (JStr (str "report.pdf"))
                    (JStr (str "application/pdf"))) ∅)
  = mkResponse 500 (obj [("error", JStr (str "ResourceNotFoundException"))]).
Proof.
  destruct (metadata_store_failure_changes_nothing example_cfg host_without_table
              POST_files_presign_upload
              (upload_request (JStr (str "report.pdf"))
                 (JStr (str "application/pdf"))) ∅
              (EvDdb (PutCommand (str "files")
                        (upload_item example_cfg host_without_table
                           (str "report.pdf") (str "application/pdf"))))
              store_down) as [Hres _].
  - apply list_elem_of_In. vm_compute. right. left. reflexivity.
  - reflexivity.
  - rewrite Hres. vm_compute; reflexivity.
Defined.

(** ** The shape of every answer *)

Lemma error_handler_shape (e : jserror) :
  ∃ msg, msg ≠ [] ∧ body (error_handler e) = obj [("error", JStr msg)]
         ∧ (statusCode e = None → status (error_handler e) = 500).
Proof.
  unfold error_handler, status_json. cbn [body status].
  destruct (message e) as [|c m] eqn:Hm; simpl.
  - exists (str "Internal Server Error"). split_and!; [by vm_compute|done|].
    by intros ->.
  - exists (c :: m). split_and!; [done..|]. by intros ->.
Qed.

Lemma str_app_nonempty (a : string) (l : jsstring) : a ≠ EmptyString → str a ++ l ≠ [].
Proof.
  destruct a as [|c a]; [done|]. intros _. by rewrite str_cons.
Qed.

(** X12: every answer that is not a 200 has the body [{ error: <message> }]
    with a message that is not empty; and when the failures of the two
    stores carry no statusCode, the status of every answer is 200, 400, 404
    or 500. *)
Theorem every_failure_is_an_error_message
    (cfg : config) (h : host) (r : route) (req : request) (t : table) :
  let res := response_of (serve cfg h r req t) in
  (status res ≠ 200 →
     ∃ msg, msg ≠ [] ∧ body res = obj [("error", JStr msg)])
  ∧ (errors_without_status h →
     status res = 200 ∨ status res = 400 ∨ status res = 404 ∨ status res = 500).
Proof.
  assert (∀ e, let res := error_handler e in
            (status res ≠ 200 →
               ∃ msg, msg ≠ [] ∧ body res = obj [("error", JStr msg)])
            ∧ (statusCode e = None →
               status res = 200 ∨ status res = 400 ∨ status res = 404
               ∨ status res = 500)) as Herr.
  { intros e res. destruct (error_handler_shape e) as (msg & ? & ? & ?).
    split; [by exists msg|auto]. }
  assert (∀ name e, e = mkError (str name ++ str " is required") (Some 400) →
            let res := error_handler e in
            (status res ≠ 200 →
               ∃ msg, msg ≠ [] ∧ body res = obj [("error", JStr msg)])
            ∧ (errors_without_status h →
               status res = 200 ∨ status res = 400 ∨ status res = 404
               ∨ status res = 500)) as Hreq.
  { intros name e -> res. split; [apply Herr|].
    intros _. subst res. rewrite error_handler_required. auto. }
  assert (∀ code msg, code = 400 ∨ code = 404 → msg ≠ [] →
            let res := status_json code (obj [("error", JStr msg)]) in
            (status res ≠ 200 →
               ∃ msg, msg ≠ [] ∧ body res = obj [("error", JStr msg)])
            ∧ (errors_without_status h →
               status res = 200 ∨ status res = 400 ∨ status res = 404
               ∨ status res = 500)) as Hplain.
  { intros code msg Hcode Hmsg res. split; [by exists msg|].
    intros _. subst res. simpl. destruct Hcode; auto. }
  assert (∀ b, let res := json b in
            (status res ≠ 200 →
               ∃ msg, msg ≠ [] ∧ body res = obj [("error", JStr msg)])
            ∧ (errors_without_status h →
               status res = 200 ∨ status res = 400 ∨ status res = 404
               ∨ status res = 500)) as Hok.
  { intros b res. split; [done|auto]. }
  assert (∀ v name, ∀ e, requireString v name = Throw e →
            e = mkError (str name ++ str " is required") (Some 400)) as Hthrow.
  { intros v name e He.
    destruct (requireString_cases v name) as [[_ Heq]|(s & _ & _ & Heq)];
      congruence. }
  intros res. subst res.
  assert (∀ e, errors_without_status h → statusCode e = None →
            (status (error_handler e) ≠ 200 →
               ∃ msg, msg ≠ [] ∧ body (error_handler e) = obj [("error", JStr msg)])
            ∧ (errors_without_status h →
               status (error_handler e) = 200 ∨ status (error_handler e) = 400
               ∨ status (error_handler e) = 404 ∨ status (error_handler e) = 500))
    as _ by (intros; split; [apply Herr|intros; by apply Herr]).
  destruct r.
  - rewrite presign_upload_run.
    destruct (requireString _ "originalFilename") as [name|e] eqn:H1;
      [|out_simpl; by eapply Hreq, Hthrow].
    destruct (requireString _ "contentType") as [ct|e] eqn:H2;
      [|out_simpl; by eapply Hreq, Hthrow].
    simpl. destruct (presigner _ _ _) as [url|e] eqn:Hsign.
    2: { out_simpl. split; [apply Herr|]. intros (Hp & _). apply Herr. eauto. }
    destruct (ddb_fault h (PutCommand _ _)) as [e|] eqn:Hput; out_simpl; [|apply Hok].
    split; [apply Herr|]. intros (_ & _ & Hd & _). apply Herr. eauto.
  - rewrite complete_run.
    destruct (requireString _ _) as [id|e] eqn:H1;
      [|out_simpl; by eapply Hreq, Hthrow].
    simpl. destruct (ddb_fault h (GetCommand _ _)) as [e|] eqn:Hget.
    { out_simpl. split; [apply Herr|]. intros (_ & _ & Hd & _). apply Herr. eauto. }
    destruct (t !! id) as [it|].
    2: { out_simpl. apply Hplain; [auto|by vm_compute]. }
    destruct (strict_neq _ _).
    { out_simpl. apply Hplain; [auto|by apply str_app_nonempty]. }
    destruct (s3_head _ _) as [head|e] eqn:Hhead.
    2: { out_simpl. split; [apply Herr|]. intros (_ & Hs & _). apply Herr. eauto. }
    destruct (ddb_fault h (UpdateCommand _ _ _)) as [e|] eqn:Hupd.
    { out_simpl. split; [apply Herr|]. intros (_ & _ & Hd & _). apply Herr. eauto. }
    case_bool_decide; out_simpl; [|apply Hok].
    split; [apply Herr|]. intros (_ & _ & _ & Hrej). by apply Herr.
  - rewrite get_metadata_run.
    destruct (requireString _ _) as [id|e] eqn:H1;
      [|out_simpl; by eapply Hreq, Hthrow].
    simpl. destruct (ddb_fault h (GetCommand _ _)) as [e|] eqn:Hget.
    { out_simpl. split; [apply Herr|]. intros (_ & _ & Hd & _). apply Herr. eauto. }
    destruct (t !! id) as [it|]; out_simpl; [apply Hok|].
    apply Hplain; [auto|by vm_compute].
  - rewrite share_run.
    destruct (requireString _ _) as [id|e] eqn:H1;
      [|out_simpl; by eapply Hreq, Hthrow].
    simpl. destruct (ddb_fault h (GetCommand _ _)) as [e|] eqn:Hget.
    { out_simpl. split; [apply Herr|]. intros (_ & _ & Hd & _). apply Herr. eauto. }
    destruct (t !! id) as [it|].
    2: { out_simpl. apply Hplain; [auto|by vm_compute]. }
    destruct (strict_neq _ _).
    { out_simpl. apply Hplain; [auto|by apply str_app_nonempty]. }
    destruct (presigner _ _ _) as [url|e] eqn:Hsign.
    2: { out_simpl. split; [apply Herr|]. intros (Hp & _). apply Herr. eauto. }
    destruct (ddb_fault h (UpdateCommand _ _ _)) as [e|] eqn:Hupd.
    { out_simpl. split; [apply Herr|]. intros (_ & _ & Hd & _). apply Herr. eauto. }
    assert ((status (error_handler (ddb_rejects h)) ≠ 200 →
               ∃ msg, msg ≠ [] ∧ body (error_handler (ddb_rejects h))
                                 = obj [("error", JStr msg)])
            ∧ (errors_without_status h →
               status (error_handler (ddb_rejects h)) = 200
               ∨ status (error_handler (ddb_rejects h)) = 400
               ∨ status (error_handler (ddb_rejects h)) = 404
               ∨ status (error_handler (ddb_rejects h)) = 500)) as Hrej.
    { split; [apply Herr|]. intros (_ & _ & _ & Hrej). by apply Herr. }
    destruct (it !! "downloadCount") as [[]|]; out_simpl;
      first [exact Hrej | apply Hok].
Qed.

Lemma every_failure_is_an_error_message_witness :
  ∃ msg, msg ≠ []
         ∧ body (response_of (serve example_cfg failing_host POST_files_complete
                                (body_fileId (JStr (str "id-1"))) uploaded_table))
           = obj [("error", JStr msg)].
Proof.
  destruct (every_failure_is_an_error_message example_cfg failing_host
              POST_files_complete (body_fileId (JStr (str "id-1"))) uploaded_table)
    as [Hbody _].
  apply Hbody. vm_compute. discriminate.
Defined.

(** ** What a request can touch *)

Lemma insert_frame (t : table) (k : jsstring) (v : jsobj) :
  (∀ id, Some k ≠ Some id → <[k := v]> t !! id = t !! id)
  ∧ (∀ id, is_Some (t !! id) → is_Some (<[k := v]> t !! id))
  ∧ (is_Some (t !! k) → ∀ id, is_Some (<[k := v]> t !! id) → is_Some (t !! id)).
Proof.
  split_and!.
  - intros id Hne. rewrite lookup_insert_ne; [done|congruence].
  - intros id Hid. rewrite lookup_insert. by case_decide.
  - intros Hk id. rewrite lookup_insert. case_decide; by subst.
Qed.

(** X13: a request touches at most one record. On every route, every key
    other than the one the request addresses (the drawn uuid for
    presign-upload, the trimmed fileId otherwise) reads as before; no
    request removes a record; and only presign-upload can add one: the
    other three routes leave the set of keys as it was. *)
Theorem a_request_touches_one_record
    (cfg : config) (h : host) (r : route) (req : request) (t : table) :
  let t' := table_of (serve cfg h r req t) in
  (∀ id, addressed h r req ≠ Some id → t' !! id = t !! id)
  ∧ (∀ id, is_Some (t !! id) → is_Some (t' !! id))
  ∧ (r ≠ POST_files_presign_upload →
     ∀ id, is_Some (t' !! id) → is_Some (t !! id)).
Proof.
  intros t'. subst t'.
  assert (∀ a : option jsstring,
            (∀ id, a ≠ Some id → t !! id = t !! id)
            ∧ (∀ id, is_Some (t !! id) → is_Some (t !! id))
            ∧ (r ≠ POST_files_presign_upload →
               ∀ id, is_Some (t !! id) → is_Some (t !! id))) as Hsame by done.
  destruct r; unfold addressed, input.
  - rewrite presign_upload_run.
    destruct (requireString _ "originalFilename") as [name|?]; [|apply Hsame].
    destruct (requireString _ "contentType") as [ct|?]; [|apply Hsame].
    simpl. destruct (presigner _ _ _) as [url|?]; [|apply Hsame].
    destruct (ddb_fault _ _) as [?|]; [apply Hsame|]. out_simpl.
    destruct (insert_frame t (uuidv4 h) (upload_item cfg h name ct))
      as (H1 & H2 & _).
    split_and!; done.
  - rewrite complete_run.
    destruct (requireString _ _) as [id0|?]; [|apply Hsame].
    simpl. destruct (ddb_fault h (GetCommand _ _)) as [?|]; [apply Hsame|].
    destruct (t !! id0) as [it0|] eqn:Hit0; [|apply Hsame].
    destruct (strict_neq _ _); [apply Hsame|].
    destruct (s3_head _ _) as [head|?]; [|apply Hsame].
    destruct (ddb_fault h (UpdateCommand _ _ _)) as [?|]; [apply Hsame|].
    case_bool_decide; [apply Hsame|]. out_simpl.
    destruct (insert_frame t id0
                (completed_item it0 (nullish (ContentLength head) JNull)
                   (nullish (ContentType head) (field it0 "contentType"))))
      as (H1 & H2 & H3).
    split_and!; [done..|]. intros _. apply H3. by rewrite Hit0.
  - rewrite get_metadata_run.
    destruct (requireString _ _) as [id0|?]; [|apply Hsame].
    simpl. destruct (ddb_fault h (GetCommand _ _)) as [?|]; [apply Hsame|].
    destruct (t !! id0); apply Hsame.
  - rewrite share_run.
    destruct (requireString _ _) as [id0|?]; [|apply Hsame].
    simpl. destruct (ddb_fault h (GetCommand _ _)) as [?|]; [apply Hsame|].
    destruct (t !! id0) as [it0|] eqn:Hit0; [|apply Hsame].
    destruct (strict_neq _ _); [apply Hsame|].
    destruct (presigner _ _ _) as [url|?]; [|apply Hsame].
    destruct (ddb_fault h (UpdateCommand _ _ _)) as [?|]; [apply Hsame|].
    assert (∀ n,
      (∀ id, Some id0 ≠ Some id →
             <[id0 := shared_item it0 n]> t !! id = t !! id)
      ∧ (∀ id, is_Some (t !! id) → is_Some (<[id0 := shared_item it0 n]> t !! id))
      ∧ (POST_files_fileId_share ≠ POST_files_presign_upload →
         ∀ id, is_Some (<[id0 := shared_item it0 n]> t !! id) → is_Some (t !! id)))
      as Hshared.
    { intros n. destruct (insert_frame t id0 (shared_item it0 n)) as (H1 & H2 & H3).
      split_and!; [done..|]. intros _. apply H3. by rewrite Hit0. }
    destruct (it0 !! "downloadCount") as [[]|]; out_simpl;
      first [apply Hsame | apply Hshared].
Qed.

Lemma a_request_touches_one_record_witness :
  table_of (serve example_cfg example_host POST_files_complete
              (body_fileId (JStr (str "id-1"))) uploaded_table) !! str "id-9"
  = uploaded_table !! str "id-9".
Proof.
  destruct (a_request_touches_one_record example_cfg example_host
              POST_files_complete (body_fileId (JStr (str "id-1"))) uploaded_table)
    as (Hframe & _).
  apply Hframe. vm_compute. discriminate.
Defined.

(** ** Start-up *)

Lemma falsy_getenv (env : environ) (name : string) :
  falsy (getenv env name) = true ↔ unset env name.
Proof.
  unfold getenv, unset. destruct (env !! name) as [[|c s]|]; simpl.
  - split; [by right|done].
  - split; [done|by intros [?|?]].
  - split; [by left|done].
Qed.

(** X14: the process exits with code 1 exactly when AWS_REGION, S3_BUCKET or
    DDB_TABLE is unset or empty, and with no other code. Otherwise it
    listens with those three values as read; the expiry is whatever
    [parseInt] makes of PRESIGN_EXPIRES_SECONDS and is never checked, so
    the process also starts when [parseInt] yields NaN; PORT, APP_ENV and
    APP_VERSION fall back to 8080, "local" and "0.0.1-local" when unset or
    empty, and a PORT that is set is passed on as the string it is. *)
Theorem startup_requires_region_bucket_table
    (parseInt : jsval -> option Z) (env : environ) :
  (startup parseInt env = Exited 1
   ↔ unset env "AWS_REGION" ∨ unset env "S3_BUCKET" ∨ unset env "DDB_TABLE")
  ∧ (∀ code, startup parseInt env = Exited code → code = 1)
  ∧ (∀ port app_env app_version region bucket table_name expires,
       startup parseInt env
       = Listening port app_env app_version region bucket table_name expires →
       (∃ r b tn, r ≠ [] ∧ b ≠ [] ∧ tn ≠ []
                  ∧ env !! "AWS_REGION" = Some r ∧ region = JStr r
                  ∧ env !! "S3_BUCKET" = Some b ∧ bucket = JStr b
                  ∧ env !! "DDB_TABLE" = Some tn ∧ table_name = JStr tn)
       ∧ expires = parseInt (getenv env "PRESIGN_EXPIRES_SECONDS")
       ∧ (unset env "PORT" → port = JNum 8080)
       ∧ (∀ p : jsstring, env !! "PORT" = Some p → p ≠ [] → port = JStr p)
       ∧ (unset env "APP_ENV" → app_env = JStr (str "local"))
       ∧ (unset env "APP_VERSION" → app_version = JStr (str "0.0.1-local"))).
Proof.
  unfold startup.
  destruct (falsy (getenv env "AWS_REGION") || falsy (getenv env "S3_BUCKET")
            || falsy (getenv env "DDB_TABLE")) eqn:Hcheck.
  - assert (unset env "AWS_REGION" ∨ unset env "S3_BUCKET" ∨ unset env "DDB_TABLE")
      as Hunset.
    { apply orb_true_iff in Hcheck as [Hcheck|Hc];
        [|right; right; by apply falsy_getenv].
      apply orb_true_iff in Hcheck as [Ha|Hb];
        [left|right; left]; by apply falsy_getenv. }
    split_and!.
    + done.
    + by intros code [= <-].
    + done.
  - apply orb_false_iff in Hcheck as [Hcheck Hc].
    apply orb_false_iff in Hcheck as [Ha Hb].
    assert (∀ name, falsy (getenv env name) = false →
              ∃ v, v ≠ [] ∧ env !! name = Some v ∧ getenv env name = JStr v)
      as Hset.
    { intros name. unfold getenv.
      destruct (env !! name) as [[|c v]|]; simpl; [done| |done].
      intros _. by exists (c :: v). }
    assert (∀ name, falsy (getenv env name) = false → ¬ unset env name) as Hnot.
    { intros name Hf Hu. apply falsy_getenv in Hu. congruence. }
    split_and!.
    + split; [done|].
      intros [Hu|[Hu|Hu]];
        [destruct (Hnot _ Ha Hu)|destruct (Hnot _ Hb Hu)|destruct (Hnot _ Hc Hu)].
    + done.
    + intros port app_env app_version region bucket table_name expires [= <- <- <- <- <- <- <-].
      destruct (Hset _ Ha) as (r & ? & ? & ->).
      destruct (Hset _ Hb) as (b & ? & ? & ->).
      destruct (Hset _ Hc) as (tn & ? & ? & ->).
      split_and!.
      * exists r, b, tn. done.
      * done.
      * intros Hu. apply falsy_getenv in Hu. unfold or_else. by rewrite Hu.
      * intros p Hp Hne.
        assert (getenv env "PORT" = JStr p) as -> by (unfold getenv; by rewrite Hp).
        unfold or_else. by destruct p.
      * intros Hu. apply falsy_getenv in Hu. unfold or_else. by rewrite Hu.
      * intros Hu. apply falsy_getenv in Hu. unfold or_else. by rewrite Hu.
Qed.

Lemma startup_requires_region_bucket_table_witness :
  startup (fun _ => None) {[ "AWS_REGION" := str "eu-central-1"; "S3_BUCKET" := [] ]}
  = Exited 1.
Proof.
  apply (startup_requires_region_bucket_table (fun _ => None)
           {[ "AWS_REGION" := str "eu-central-1"; "S3_BUCKET" := [] ]}).
  right. left. right. reflexivity.
Defined.
